(** * Fujifilm Grain Simulator: grain synthesis, compositing and LUT grading

    A shallow embedding of [js/grainProcessor.js] (class [GrainProcessor])
    and of the LUT processing module (class [LUTProcessor]), together with
    the properties of the image pipeline that the design document states.

    Number model.  A JavaScript Number is modelled as an extended real:
    [NaN], the two infinities, or a finite real number.  Arithmetic on finite
    values is exact real arithmetic (binary64 rounding and overflow are
    idealised away, and the two zeros are identified); the special values
    follow IEEE 754 as ECMAScript prescribes.  The [Math] functions are the
    mathematical functions of the real-number library.

    Pixel buffers are [Uint8ClampedArray]s: lists of bytes (integers in
    0..255); a store converts with ToUint8Clamp, a read past the end yields
    [undefined], which every use in this program turns into [NaN]. *)

From stdpp Require Import gmap strings list.
From Stdlib Require Import Ascii Reals Lra Lia ZArith ZifyNat.

Set Default Proof Using "Type".

(** ** JavaScript numbers *)

Inductive JSNum : Type :=
| NaN
| NegInf
| PosInf
| Num (r : R).

Arguments Num r%_R.

Declare Scope js_scope.
Delimit Scope js_scope with js.
Bind Scope js_scope with JSNum.

Definition js_of_Z (z : Z) : JSNum := Num (IZR z).
Definition js_of_nat (n : nat) : JSNum := Num (IZR (Z.of_nat n)).

Definition js_neg (a : JSNum) : JSNum :=
  match a with
  | NaN => NaN
  | NegInf => PosInf
  | PosInf => NegInf
  | Num x => Num (- x)
  end.

Definition js_add (a b : JSNum) : JSNum :=
  match a, b with
  | NaN, _ | _, NaN => NaN
  | PosInf, NegInf | NegInf, PosInf => NaN
  | PosInf, _ | _, PosInf => PosInf
  | NegInf, _ | _, NegInf => NegInf
  | Num x, Num y => Num (x + y)
  end.

Definition js_sub (a b : JSNum) : JSNum := js_add a (js_neg b).

(** The infinity whose sign is the sign of the non-zero real [x]. *)
Definition inf_signed (x : R) : JSNum :=
  if Rlt_dec 0 x then PosInf else NegInf.

Definition js_mul (a b : JSNum) : JSNum :=
  match a, b with
  | NaN, _ | _, NaN => NaN
  | Num x, Num y => Num (x * y)
  | Num x, PosInf | PosInf, Num x =>
      if Req_dec_T x 0 then NaN else inf_signed x
  | Num x, NegInf | NegInf, Num x =>
      if Req_dec_T x 0 then NaN else inf_signed (- x)
  | PosInf, PosInf | NegInf, NegInf => PosInf
  | PosInf, NegInf | NegInf, PosInf => NegInf
  end.

Definition js_div (a b : JSNum) : JSNum :=
  match a, b with
  | NaN, _ | _, NaN => NaN
  | Num x, Num y =>
      if Req_dec_T y 0
      then (if Req_dec_T x 0 then NaN else inf_signed x)
      else Num (x / y)
  | Num _, (PosInf | NegInf) => Num 0
  | PosInf, Num y => if Rlt_dec y 0 then NegInf else PosInf
  | NegInf, Num y => if Rlt_dec y 0 then PosInf else NegInf
  | (PosInf | NegInf), (PosInf | NegInf) => NaN
  end.

Infix "+" := js_add : js_scope.
Infix "-" := js_sub : js_scope.
Infix "*" := js_mul : js_scope.
Infix "/" := js_div : js_scope.

(** [a === b] on numbers: [NaN] is different from everything. *)
Definition js_strict_eq (a b : JSNum) : bool :=
  match a, b with
  | NegInf, NegInf | PosInf, PosInf => true
  | Num x, Num y => if Req_dec_T x y then true else false
  | _, _ => false
  end.

(** ** The [Math] object *)

Definition Math_PI : JSNum := Num PI.

Definition Math_floor (a : JSNum) : JSNum :=
  match a with
  | Num x => Num (IZR (Int_part x))
  | other => other
  end.

Definition Math_sin (a : JSNum) : JSNum :=
  match a with Num x => Num (sin x) | _ => NaN end.

Definition Math_cos (a : JSNum) : JSNum :=
  match a with Num x => Num (cos x) | _ => NaN end.

Definition Math_tanh (a : JSNum) : JSNum :=
  match a with
  | NaN => NaN
  | NegInf => Num (-1)
  | PosInf => Num 1
  | Num x => Num (tanh x)
  end.

Definition Math_exp (a : JSNum) : JSNum :=
  match a with
  | NaN => NaN
  | NegInf => Num 0
  | PosInf => PosInf
  | Num x => Num (exp x)
  end.

(** [Math.pow(a, n)] for a natural-number exponent, the only use in the
    source ([Math.pow(luminance - 0.5, 2)]). *)
Definition Math_pow (a : JSNum) (n : nat) : JSNum :=
  match n with
  | O => Num 1
  | _ =>
      match a with
      | NaN => NaN
      | PosInf => PosInf
      | NegInf => if Nat.even n then PosInf else NegInf
      | Num x => Num (x ^ n)
      end
  end.

Definition Math_min (a b : JSNum) : JSNum :=
  match a, b with
  | NaN, _ | _, NaN => NaN
  | NegInf, _ | _, NegInf => NegInf
  | PosInf, c | c, PosInf => c
  | Num x, Num y => Num (Rmin x y)
  end.

Definition Math_max (a b : JSNum) : JSNum :=
  match a, b with
  | NaN, _ | _, NaN => NaN
  | PosInf, _ | _, PosInf => PosInf
  | NegInf, c | c, NegInf => c
  | Num x, Num y => Num (Rmax x y)
  end.

(** ** Typed arrays: [Uint8ClampedArray] *)

(** Round to the nearest integer, ties to the even one (the rounding of
    ToUint8Clamp). *)
Definition round_half_even (x : R) : Z :=
  let f := Int_part x in
  if Rlt_dec (IZR f + 1 / 2) x then (f + 1)%Z
  else if Rlt_dec x (IZR f + 1 / 2) then f
  else if Z.even f then f else (f + 1)%Z.

Definition ToUint8Clamp (v : JSNum) : Z :=
  match v with
  | NaN => 0
  | NegInf => 0
  | PosInf => 255
  | Num x =>
      if Rle_dec x 0 then 0%Z
      else if Rle_dec 255 x then 255%Z
      else round_half_even x
  end.

Abbreviation Uint8ClampedArray := (list Z).

(** [data[i]] used as a number: the byte, or [NaN] for [undefined]. *)
Definition u8_get (data : Uint8ClampedArray) (i : Z) : JSNum :=
  if (i <? 0)%Z then NaN
  else match data !! Z.to_nat i with
       | Some byte => js_of_Z byte
       | None => NaN
       end.

(** [data[i] = v]: a store outside the array is ignored. *)
Definition u8_set (data : Uint8ClampedArray) (i : Z) (v : JSNum)
  : Uint8ClampedArray :=
  if (i <? 0)%Z then data else <[Z.to_nat i := ToUint8Clamp v]> data.

(** ** Completions, and the monad of the processor methods

    A method either returns normally or throws; [Math.random] draws from a
    source of randomness that is part of the ambient state. *)

Inductive Exn : Type :=
| RangeError
| TypeError
| Error (message : string).

Inductive Completion (A : Type) : Type :=
| Normal (a : A)
| Throw (e : Exn).

Arguments Normal {A} a.
Arguments Throw {A} e.

Record World : Type := mkWorld {
  random_source : nat -> R;   (* the successive results of Math.random() *)
  random_drawn : nat          (* how many have been consumed *)
}.

(** A computation over a state of type [St]: the state is kept when an
    exception is thrown, as the mutations made before a [throw] are. *)
Definition M (St A : Type) : Type := St -> Completion A * St.

(** The methods of [GrainProcessor] run in the ambient state [World]. *)
Abbreviation JS := (M World).

Definition ret {St A} (a : A) : M St A := fun w => (Normal a, w).

Definition throw {St A} (e : Exn) : M St A := fun w => (Throw e, w).

Definition bind {St A B} (m : M St A) (k : A -> M St B) : M St B :=
  fun w =>
    match m w with
    | (Normal a, w') => k a w'
    | (Throw e, w') => (Throw e, w')
    end.

Notation "'let!' x ':=' m 'in' k" := (bind m (fun x => k))
  (at level 10, x name, m at level 100, k at level 200,
   format "'[v' 'let!'  x  :=  m  'in' '/' k ']'").

Definition Math_random : JS JSNum :=
  fun w =>
    (Normal (Num (random_source w (random_drawn w))),
     mkWorld (random_source w) (S (random_drawn w))).

(** [for (let i = start; i < start + count; i++) body], threading the
    variables the body assigns. *)
Fixpoint for_range {St S} (start count : nat) (body : nat -> S -> M St S)
    (s : S) : M St S :=
  match count with
  | O => ret s
  | Datatypes.S k =>
      let! s' := body start s in for_range (Datatypes.S start) k body s'
  end.

(** [Array(n)]: throws unless [n] is a valid array length. *)
Definition Array_ {St A} (n : Z) (fill : A) : M St (list A) :=
  if ((n <? 0) || (2 ^ 32 <=? n))%Z then throw RangeError
  else ret (replicate (Z.to_nat n) fill).

(** [Array(height).fill().map(() => Array(width).fill(0))] *)
Definition new_grid {St} (width height : Z) : M St (list (list JSNum)) :=
  let! rows := Array_ height tt in
  match rows with
  | [] => ret []
  | _ :: _ =>
      let! row := Array_ width (Num 0) in
      ret (replicate (length rows) row)
  end.

(** [grid[y][x]]: reading a property of [undefined] throws. *)
Definition grid_get {St} (grid : list (list JSNum)) (y x : nat)
  : M St JSNum :=
  match grid !! y with
  | None => throw TypeError
  | Some row =>
      match row !! x with
      | Some v => ret v
      | None => ret NaN
      end
  end.

(** [row[x] = v] on an [Array] of numbers: a store past the end extends
    the array (the holes it leaves read as [undefined], [NaN] in
    arithmetic). *)
Definition array_set (row : list JSNum) (x : nat) (v : JSNum) : list JSNum :=
  if decide (x < length row)%nat then <[x := v]> row
  else row ++ replicate (x - length row) NaN ++ [v].

(** [grid[y][x] = v]: storing into a row that is [undefined] throws. *)
Definition grid_set {St} (grid : list (list JSNum)) (y x : nat) (v : JSNum)
  : M St (list (list JSNum)) :=
  match grid !! y with
  | None => throw TypeError
  | Some row => ret (<[y := array_set row x v]> grid)
  end.

(** [l[k]] for a number [k]: defined only at the indices of [l]. *)
Definition array_get {A} (l : list A) (k : JSNum) : option A :=
  match k with
  | Num x =>
      let z := Int_part x in
      if Req_dec_T (IZR z) x
      then (if (z <? 0)%Z then None else l !! Z.to_nat z)
      else None
  | _ => None
  end.


(** What a canvas hands to a processor and takes back. *)
Record ImageData : Type := mkImageData {
  data : Uint8ClampedArray;
  width : Z;
  height : Z
}.

(** * The grain processor ([js/grainProcessor.js]) *)

Module GrainProcessor.

Record IsoParams : Type := mkIsoParams {
  intensity : JSNum;
  size : JSNum;
  contrast : JSNum
}.

(** The settings object the caller passes; [iso] is the value of a select
    element, a string. *)
Record Settings : Type := mkSettings {
  iso : string;
  strength : JSNum;
  grainSize : JSNum
}.

Abbreviation Grid := (list (list JSNum)).

Local Open Scope js_scope.

Definition _fade (t : JSNum) : JSNum :=
  t * t * t * (t * (t * Num 6 - Num 15) + Num 10).

Definition _lerp (a b t : JSNum) : JSNum :=
  a + t * (b - a).

Definition _gradientDot (ix iy x y : JSNum) : JSNum :=
  let random := Math_sin (ix * Num 12.9898 + iy * Num 78.233) * Num 43758.5453 in
  let angle := (random - Math_floor random) * Math_PI * Num 2 in
  let gx := Math_cos angle in
  let gy := Math_sin angle in
  gx * x + gy * y.

Definition _generateCoherentNoise (x y : JSNum) : JSNum :=
  let X := Math_floor x in
  let Y := Math_floor y in
  let xf := x - X in
  let yf := y - Y in
  let n00 := _gradientDot X Y xf yf in
  let n01 := _gradientDot X (Y + Num 1) xf (yf - Num 1) in
  let n10 := _gradientDot (X + Num 1) Y (xf - Num 1) yf in
  let n11 := _gradientDot (X + Num 1) (Y + Num 1) (xf - Num 1) (yf - Num 1) in
  let u := _fade xf in
  let v := _fade yf in
  let nx0 := _lerp n00 n10 u in
  let nx1 := _lerp n01 n11 u in
  _lerp nx0 nx1 v.

Definition _applyFilmCurve (value : JSNum) : JSNum :=
  Math_tanh (value * Num 2) * Num 0.5.

Definition _getAdaptiveStrength (luminance baseIntensity : JSNum) : JSNum :=
  let midtoneCurve :=
    Math_exp (js_neg (Math_pow (luminance - Num 0.5) 2) / Num 0.18) in
  baseIntensity * (Num 0.4 + Num 0.6 * midtoneCurve).

Definition _clamp (value : JSNum) : JSNum :=
  Math_max (Num 0) (Math_min (Num 255) value).

(** The table of [_getIsoParameters], keyed by its property names. *)
Definition params : gmap string IsoParams :=
  list_to_map
    [ ("100"%string,  mkIsoParams (Num 0.08) (Num 0.7) (Num 0.3));
      ("200"%string,  mkIsoParams (Num 0.12) (Num 0.8) (Num 0.4));
      ("400"%string,  mkIsoParams (Num 0.18) (Num 0.9) (Num 0.5));
      ("800"%string,  mkIsoParams (Num 0.25) (Num 1.0) (Num 0.6));
      ("1600"%string, mkIsoParams (Num 0.35) (Num 1.2) (Num 0.7));
      ("3200"%string, mkIsoParams (Num 0.50) (Num 1.5) (Num 0.8)) ].

Definition params_800 : IsoParams :=
  mkIsoParams (Num 0.25) (Num 1.0) (Num 0.6).

(** [params[iso] || params[800]] *)
Definition _getIsoParameters (iso : string) : IsoParams :=
  default params_800 (params !! iso).

Definition scales : list JSNum := [Num 1.0; Num 2.0; Num 4.0].

Definition _generateMonochromaticGrain (width height : Z) (grainSize : JSNum)
  : JS Grid :=
  let! grain := new_grid width height in
  for_range 0 (Z.to_nat height) (fun y grain =>
    for_range 0 (Z.to_nat width) (fun x grain =>
      let! grainValue :=
        for_range 0 (length scales) (fun i grainValue =>
          let scale := default NaN (scales !! i) * grainSize in
          let weight := Num 1.0 / js_of_nat (i + 1) in
          let noise :=
            _generateCoherentNoise (js_of_nat x / scale) (js_of_nat y / scale) in
          ret (grainValue + noise * weight)) (Num 0) in
      let grainValue := _applyFilmCurve (grainValue / js_of_nat (length scales)) in
      grid_set grain y x grainValue) grain) grain.

(** [(y * width + x) * 4] *)
Definition pixel_index (width : Z) (y x : nat) : Z :=
  ((Z.of_nat y * width + Z.of_nat x) * 4)%Z.

Definition _createLuminanceMap (data : Uint8ClampedArray) (width height : Z)
  : JS Grid :=
  let! map := new_grid width height in
  for_range 0 (Z.to_nat height) (fun y map =>
    for_range 0 (Z.to_nat width) (fun x map =>
      let index := pixel_index width y x in
      let r := u8_get data index in
      let g := u8_get data (index + 1) in
      let b := u8_get data (index + 2) in
      grid_set map y x
        ((Num 0.299 * r + Num 0.587 * g + Num 0.114 * b) / Num 255)) map) map.

Definition _applyNaturalGrain (data : Uint8ClampedArray) (width height : Z)
    (settings : Settings) : JS Uint8ClampedArray :=
  let isoParams := _getIsoParameters (iso settings) in
  let grainIntensity := strength settings * intensity isoParams in
  let grainSize := grainSize settings * size isoParams in
  let! luminanceMap := _createLuminanceMap data width height in
  let! grainPattern := _generateMonochromaticGrain width height grainSize in
  for_range 0 (Z.to_nat height) (fun y data =>
    for_range 0 (Z.to_nat width) (fun x data =>
      let index := pixel_index width y x in
      let! luminance := grid_get luminanceMap y x in
      let adaptiveStrength := _getAdaptiveStrength luminance grainIntensity in
      let! grain := grid_get grainPattern y x in
      let grainValue := grain * adaptiveStrength * Num 255 in
      let data := u8_set data index (_clamp (u8_get data index + grainValue)) in
      let data :=
        u8_set data (index + 1) (_clamp (u8_get data (index + 1) + grainValue)) in
      let data :=
        u8_set data (index + 2) (_clamp (u8_get data (index + 2) + grainValue)) in
      ret data) data) data.


(** [_generateOptimizedGrain]; its local [scale] is computed and never
    used. *)
Definition _generateOptimizedGrain (width height : Z) (grainSize : JSNum)
  : JS Grid :=
  let! grain := new_grid width height in
  for_range 0 (Z.to_nat height) (fun y grain =>
    for_range 0 (Z.to_nat width) (fun x grain =>
      let! r1 := Math_random in
      let value1 := r1 - Num 0.5 in
      let! r2 := Math_random in
      let value2 := r2 - Num 0.5 in
      let! r3 := Math_random in
      let value3 := r3 - Num 0.5 in
      grid_set grain y x
        ((value1 * Num 0.6 + value2 * Num 0.3 + value3 * Num 0.1) * grainSize))
      grain) grain.



End GrainProcessor.

(** * Strings, as the LUT parser uses them

    Strings are sequences of ASCII characters; white space is the ASCII
    white space (tab, line feed, vertical tab, form feed, carriage return,
    space). *)

Module JSString.

Local Open Scope string_scope.

Definition newline : ascii := "010"%char.
Definition quote : ascii := "034"%char.

(** [s.startsWith(p)] *)
Definition startsWith (s p : string) : bool := String.prefix p s.

Fixpoint trimStart (s : string) : string :=
  match s with
  | String c rest => if Ascii.is_space c then trimStart rest else s
  | EmptyString => EmptyString
  end.

(** [s.trim()] *)
Definition trim (s : string) : string :=
  String.rev (trimStart (String.rev (trimStart s))).

(** [s.split(c)] for a one-character separator. *)
Fixpoint split_go (c : ascii) (cur : string) (s : string) : list string :=
  match s with
  | EmptyString => [String.rev cur]
  | String a rest =>
      if Ascii.eqb a c then String.rev cur :: split_go c EmptyString rest
      else split_go c (String a cur) rest
  end.

Definition split (c : ascii) (s : string) : list string :=
  split_go c EmptyString s.

Fixpoint drop_chars (n : nat) (s : string) : string :=
  match n, s with
  | Datatypes.S k, String _ rest => drop_chars k rest
  | _, _ => s
  end.

(** [s.replace(p, "")] for a string pattern: the first occurrence of [p]
    is removed. *)
Fixpoint remove_first (p s : string) : string :=
  if String.prefix p s then drop_chars (String.length p) s
  else match s with
       | String a rest => String a (remove_first p rest)
       | EmptyString => EmptyString
       end.

(** [s.replace(/c/g, "")]: every occurrence of the character is removed. *)
Fixpoint remove_all (c : ascii) (s : string) : string :=
  match s with
  | String a rest =>
      if Ascii.eqb a c then remove_all c rest else String a (remove_all c rest)
  | EmptyString => EmptyString
  end.

(** [s.split(/\s+/).filter(v => v)] *)
Definition split_whitespace (s : string) : list string := String.words s.

(** The longest prefix of decimal digits, and what follows it. *)
Fixpoint digits_prefix (s : string) : list Z * string :=
  match s with
  | String c rest =>
      match Ascii.is_nat c with
      | Some d => let '(ds, s') := digits_prefix rest in (Z.of_nat d :: ds, s')
      | None => ([], s)
      end
  | EmptyString => ([], EmptyString)
  end.

Definition hex_digit (c : ascii) : option Z :=
  match Ascii.is_nat c with
  | Some d => Some (Z.of_nat d)
  | None =>
      let n := nat_of_ascii c in
      if (97 <=? n)%nat && (n <=? 102)%nat then Some (Z.of_nat (n - 87))
      else if (65 <=? n)%nat && (n <=? 70)%nat then Some (Z.of_nat (n - 55))
      else None
  end.

Fixpoint hex_digits_prefix (s : string) : list Z :=
  match s with
  | String c rest =>
      match hex_digit c with
      | Some d => d :: hex_digits_prefix rest
      | None => []
      end
  | EmptyString => []
  end.

Definition digits_value (radix : Z) (ds : list Z) : Z :=
  fold_left (fun acc d => (radix * acc + d)%Z) ds 0%Z.

(** An optional sign: whether it is a minus, and what follows it. *)
Definition sign_prefix (s : string) : bool * string :=
  match s with
  | String "-" rest => (true, rest)
  | String "+" rest => (false, rest)
  | _ => (false, s)
  end.

(** [parseFloat(s)]: the longest prefix that is a decimal literal. *)
Definition parseFloat (s : string) : JSNum :=
  let '(negative, s0) := sign_prefix (trimStart s) in
  if String.prefix "Infinity" s0 then (if negative then NegInf else PosInf)
  else
    let '(int_digits, s1) := digits_prefix s0 in
    let '(frac_digits, s2) :=
      match s1 with
      | String "." rest => digits_prefix rest
      | _ => ([], s1)
      end in
    match (int_digits ++ frac_digits)%list with
    | [] => NaN
    | mantissa =>
        let exponent :=
          match s2 with
          | String ("e" | "E") rest =>
              let '(eneg, s3) := sign_prefix rest in
              let e := digits_value 10 (fst (digits_prefix s3)) in
              if eneg then (- e)%Z else e
          | _ => 0%Z
          end in
        let magnitude :=
          (IZR (digits_value 10 mantissa)
           * powerRZ 10 (exponent - Z.of_nat (length frac_digits)))%R in
        Num (if negative then - magnitude else magnitude)
    end.

(** [parseInt(s)] without a radix: decimal, or hexadecimal after [0x]. *)
Definition parseInt (s : string) : JSNum :=
  let '(negative, s0) := sign_prefix (trimStart s) in
  let digits :=
    if String.prefix "0x" s0 || String.prefix "0X" s0
    then (16%Z, hex_digits_prefix (drop_chars 2 s0))
    else (10%Z, fst (digits_prefix s0)) in
  match snd digits with
  | [] => NaN
  | ds =>
      let n := digits_value (fst digits) ds in
      js_of_Z (if negative then (- n)%Z else n)
  end.

Definition is_word_char (c : ascii) : bool :=
  let n := nat_of_ascii c in
  ((48 <=? n) && (n <=? 57) || (65 <=? n) && (n <=? 90)
   || (97 <=? n) && (n <=? 122) || (n =? 95))%nat.

Definition toUpperCase_char (c : ascii) : ascii :=
  let n := nat_of_ascii c in
  if ((97 <=? n) && (n <=? 122))%nat then ascii_of_nat (n - 32) else c.

(** [s.replace(/\b\w/g, l => l.toUpperCase())] *)
Fixpoint capitalize_words_go (prev_word : bool) (s : string) : string :=
  match s with
  | String c rest =>
      String (if is_word_char c && negb prev_word then toUpperCase_char c else c)
        (capitalize_words_go (is_word_char c) rest)
  | EmptyString => EmptyString
  end.

Definition is_digit (c : ascii) : bool :=
  match Ascii.is_nat c with Some _ => true | None => false end.

Fixpoint all_digits (s : string) : bool :=
  match s with
  | String c rest => is_digit c && all_digits rest
  | EmptyString => true
  end.

(** [s.replace(/(\d+)$/, " $1")] *)
Fixpoint space_before_trailing_digits (s : string) : string :=
  match s with
  | String c rest =>
      if all_digits s then String " " s
      else String c (space_before_trailing_digits rest)
  | EmptyString => EmptyString
  end.

Fixpoint replace_char (c by_ : ascii) (s : string) : string :=
  match s with
  | String a rest =>
      String (if Ascii.eqb a c then by_ else a) (replace_char c by_ rest)
  | EmptyString => EmptyString
  end.

End JSString.

(** * The LUT processor *)

Module LUTProcessor.

Import JSString.

Record RGB : Type := mkRGB {
  rgb_r : JSNum;
  rgb_g : JSNum;
  rgb_b : JSNum
}.

(** A parsed [.cube] table ([lut.size], [lut.data], [lut.title]). *)
Record LUT : Type := mkLUT {
  lut_size : JSNum;
  lut_data : list RGB;
  lut_title : string
}.

(** An entry of the manifest, or the metadata made up for a discovered LUT. *)
Record Metadata : Type := mkMetadata {
  meta_id : string;
  meta_name : string
}.

Record LutInfo : Type := mkLutInfo {
  info_data : option LUT;        (* [null] until the LUT is loaded *)
  info_metadata : Metadata;
  info_lastAccessed : Z
}.

(** The fields of a [LUTProcessor] object. *)
Record State : Type := mkState {
  lutCache : gmap string LutInfo;
  lutSize : Z;
  lutManifest : option (list Metadata);
  isInitialized : bool;
  initPromise : bool              (* whether [initPromise] has been set *)
}.

(** What the processor obtains from outside: the answers of the server
    that hosts the [luts/] folder, and the clock. *)
Record Env : Type := mkEnv {
  fetch_manifest : option (list Metadata);  (* luts/manifest.json, if served *)
  fetch_listing : option (list string);     (* links to .cube files in luts/ *)
  fetch_head : string -> bool;              (* does luts/<name>.cube exist *)
  fetch_cube : string -> option string;     (* the text of luts/<name>.cube *)
  Date_now : Z
}.

Definition constructor : State := mkState ∅ 64 None false false.

Local Open Scope js_scope.

Definition get_state : M State State := fun st => (Normal st, st).
Definition set_cache (f : gmap string LutInfo -> gmap string LutInfo)
  : M State unit :=
  fun st =>
    (Normal tt,
     mkState (f (lutCache st)) (lutSize st) (lutManifest st)
       (isInitialized st) (initPromise st)).

(** [try body catch handler] *)
Definition try_catch {St A} (body : M St A) (handler : Exn -> M St A)
  : M St A :=
  fun st =>
    match body st with
    | (Normal a, st') => (Normal a, st')
    | (Throw e, st') => handler e st'
    end.

Definition formatLUTName (lutId : string) : string :=
  space_before_trailing_digits
    (capitalize_words_go false (replace_char "_" " " lutId)).

Definition loadLUTManifest (env : Env) : M State unit :=
  match fetch_manifest env with
  | None => throw (Error "HTTP")
  | Some luts =>
      fun st =>
        (Normal tt,
         mkState
           (fold_left
              (fun cache lut =>
                 <[meta_id lut := mkLutInfo None lut (Date_now env)]> cache)
              luts (lutCache st))
           (lutSize st) (Some luts) (isInitialized st) (initPromise st))
  end.

Definition commonLUTs : list string :=
  [ "Agfa_Optima_100"; "Agfa_Optima_200"; "Agfa_Portrait_160";
    "Fuji_Astia_100F"; "Fuji_Pro_400h"; "Fuji_Provia_100F";
    "Kodak_Portra_400"; "Kodak_Ektar_100"; "Kodak_Ultramax_400";
    "Fuji_Superia_200"; "Fuji_Superia_400"; "Fuji_Superia_800";
    "Kodak_Gold_200"; "Kodak_Gold_400"; "Ilford_HP5_400" ]%string.

(** [discoveredLUTs.add(name)] on a [Set] kept in insertion order. *)
Definition set_add (name : string) (set : list string) : list string :=
  if decide (name ∈ set) then set else set ++ [name].

Definition scanCommonLUTs (env : Env) (discoveredLUTs : list string)
  : list string :=
  fold_left
    (fun set lutName => if fetch_head env lutName then set_add lutName set else set)
    commonLUTs discoveredLUTs.

Definition scanLUTsFolder (env : Env) : M State unit :=
  let discoveredLUTs :=
    match fetch_listing env with
    | Some lutFiles =>
        fold_left (fun set file => set_add (remove_first ".cube" file) set)
          lutFiles []
    | None => []
    end in
  let discoveredLUTs :=
    match discoveredLUTs with
    | [] => scanCommonLUTs env discoveredLUTs
    | _ :: _ => discoveredLUTs
    end in
  set_cache (fun cache =>
    fold_left
      (fun cache lutId =>
         <[lutId := mkLutInfo None (mkMetadata lutId (formatLUTName lutId))
                      (Date_now env)]> cache)
      discoveredLUTs cache).

Definition _initializeInternal (env : Env) : M State unit :=
  let! _ := try_catch (loadLUTManifest env) (fun _ => scanLUTsFolder env) in
  fun st =>
    (Normal tt,
     mkState (lutCache st) (lutSize st) (lutManifest st) true (initPromise st)).

Definition initialize (env : Env) : M State unit :=
  let! this := get_state in
  if isInitialized this then ret tt
  else if initPromise this then ret tt
  else
    let! _ := (fun st =>
      (Normal tt,
       mkState (lutCache st) (lutSize st) (lutManifest st) (isInitialized st)
         true)) in
    _initializeInternal env.

Definition clamp01 (v : JSNum) : JSNum :=
  Math_max (Num 0) (Math_min (Num 1) v).

(** The body of the loop of [parseCUBEFile] over the lines. *)
Definition parse_line (lut : LUT) (line : string) : LUT :=
  let trimmed := trim line in
  if (trimmed =? "")%string || startsWith trimmed "#" then lut
  else if startsWith trimmed "TITLE" then
    mkLUT (lut_size lut) (lut_data lut)
      (trim (remove_all quote (remove_first "TITLE" trimmed)))
  else if startsWith trimmed "LUT_3D_SIZE" then
    mkLUT (parseInt (trim (remove_first "LUT_3D_SIZE" trimmed)))
      (lut_data lut) (lut_title lut)
  else
    match split_whitespace trimmed with
    | [v0; v1; v2] =>
        mkLUT (lut_size lut)
          (lut_data lut
           ++ [mkRGB (clamp01 (parseFloat v0)) (clamp01 (parseFloat v1))
                 (clamp01 (parseFloat v2))])
          (lut_title lut)
    | _ => lut
    end.

Definition parseCUBEFile {St} (content : string) : M St LUT :=
  let lines := split newline content in
  let lut := fold_left parse_line lines (mkLUT (Num 33) [] "Unknown LUT") in
  if decide (length (lut_data lut) = 0%nat)
  then throw (Error "No valid LUT data found")
  else ret lut.

Definition loadExternalLUT (env : Env) (lutName : string) : M State LUT :=
  try_catch
    (match fetch_cube env lutName with
     | None => throw (Error ("LUT not found: " +:+ lutName +:+ ".cube"))
     | Some cubeContent =>
         let! lutData := parseCUBEFile cubeContent in
         let! _ := set_cache (fun cache =>
           match cache !! lutName with
           | Some lutInfo =>
               <[lutName := mkLutInfo (Some lutData) (info_metadata lutInfo)
                              (Date_now env)]> cache
           | None =>
               <[lutName := mkLutInfo (Some lutData)
                              (mkMetadata lutName (formatLUTName lutName))
                              (Date_now env)]> cache
           end) in
         ret lutData
     end)
    (fun error =>
       let! _ := set_cache (fun cache => delete lutName cache) in
       throw error).

(** [mix(a, b, t)] *)
Definition mix (a b t : JSNum) : JSNum := a + (b - a) * t.

(** [mixColor(c1, c2, t)]: reading [.r] of [undefined] throws. *)
Definition mixColor {St} (c1 c2 : option RGB) (t : JSNum) : M St RGB :=
  match c1, c2 with
  | Some c1, Some c2 =>
      ret (mkRGB (mix (rgb_r c1) (rgb_r c2) t)
             (mix (rgb_g c1) (rgb_g c2) t)
             (mix (rgb_b c1) (rgb_b c2) t))
  | _, _ => throw TypeError
  end.

Definition getLUTColor (lut : LUT) (x y z size : JSNum) : option RGB :=
  let index := (z * size * size) + (y * size) + x in
  array_get (lut_data lut)
    (Math_min index (js_of_nat (length (lut_data lut)) - Num 1)).

Definition sampleLUT3D {St} (lut : LUT) (r g b size : JSNum) : M St RGB :=
  let x := r * (size - Num 1) in
  let y := g * (size - Num 1) in
  let z := b * (size - Num 1) in
  let x0 := Math_floor x in
  let y0 := Math_floor y in
  let z0 := Math_floor z in
  let x1 := Math_min (x0 + Num 1) (size - Num 1) in
  let y1 := Math_min (y0 + Num 1) (size - Num 1) in
  let z1 := Math_min (z0 + Num 1) (size - Num 1) in
  let dx := x - x0 in
  let dy := y - y0 in
  let dz := z - z0 in
  let c000 := getLUTColor lut x0 y0 z0 size in
  let c100 := getLUTColor lut x1 y0 z0 size in
  let c010 := getLUTColor lut x0 y1 z0 size in
  let c110 := getLUTColor lut x1 y1 z0 size in
  let c001 := getLUTColor lut x0 y0 z1 size in
  let c101 := getLUTColor lut x1 y0 z1 size in
  let c011 := getLUTColor lut x0 y1 z1 size in
  let c111 := getLUTColor lut x1 y1 z1 size in
  let! c00 := mixColor c000 c100 dx in
  let! c01 := mixColor c001 c101 dx in
  let! c10 := mixColor c010 c110 dx in
  let! c11 := mixColor c011 c111 dx in
  let! c0 := mixColor (Some c00) (Some c10) dy in
  let! c1 := mixColor (Some c01) (Some c11) dy in
  mixColor (Some c0) (Some c1) dz.

Definition applyLUTTransformation {St} (imageData : ImageData) (lut : LUT)
    (strength : JSNum) : M St ImageData :=
  let data := data imageData in     (* new Uint8ClampedArray(imageData.data) *)
  let lutSize := lut_size lut in
  let dataLength := length data in
  let! data :=
    for_range 0 ((dataLength + 3) / 4)%nat (fun k data =>
      let i := (4 * Z.of_nat k)%Z in
      let r := u8_get data i / Num 255 in
      let g := u8_get data (i + 1) / Num 255 in
      let b := u8_get data (i + 2) / Num 255 in
      let! lutColor := sampleLUT3D lut r g b lutSize in
      let data :=
        u8_set data i (mix (u8_get data i) (rgb_r lutColor * Num 255) strength) in
      let data :=
        u8_set data (i + 1)
          (mix (u8_get data (i + 1)) (rgb_g lutColor * Num 255) strength) in
      let data :=
        u8_set data (i + 2)
          (mix (u8_get data (i + 2)) (rgb_b lutColor * Num 255) strength) in
      ret data) data in
  ret (mkImageData data (width imageData) (height imageData)).

(** [applyLUT(imageData, lutName, strength)]; [imageData] may be [null]. *)
Definition applyLUT (env : Env) (imageData : option ImageData)
    (lutName : string) (strength : JSNum) : M State (option ImageData) :=
  let! this := get_state in
  let! _ := (if isInitialized this then ret tt else initialize env) in
  if decide (lutName = "none"%string) then ret imageData
  else if js_strict_eq strength (Num 0) then ret imageData
  else
    match imageData with
    | None => ret imageData
    | Some image =>
        let! this := get_state in
        match lutCache this !! lutName with
        | None => ret imageData
        | Some lutInfo =>
            let! loaded :=
              match info_data lutInfo with
              | Some lutData => ret (Some lutData)
              | None =>
                  try_catch
                    (let! lutData := loadExternalLUT env lutName in
                     ret (Some lutData))
                    (fun _ => ret None)
              end in
            match loaded with
            | None => ret imageData
            | Some lutData =>
                let! _ := set_cache (fun cache =>
                  match cache !! lutName with
                  | Some current =>
                      <[lutName := mkLutInfo (info_data current)
                                     (info_metadata current) (Date_now env)]>
                        cache
                  | None => cache
                  end) in
                let! result := applyLUTTransformation image lutData strength in
                ret (Some result)
            end
        end
    end.

End LUTProcessor.

(** * The design document's formulas

    Definitions that follow the words of the design document, to be
    compared with the functions of the source. *)

Module Spec.

Local Open Scope R_scope.

(** The quintic fade [fade(t) = t^3 (t (6 t - 15) + 10)]. *)
Definition fade (t : R) : R := t ^ 3 * (t * (6 * t - 15) + 10).

(** [angle = frac(sin(ix * 12.9898 + iy * 78.233) * 43758.5453) * 2 pi] *)
Definition angle (ix iy : Z) : R :=
  frac_part (sin (IZR ix * 12.9898 + IZR iy * 78.233) * 43758.5453) * (2 * PI).

(** [gradient = (cos(angle), sin(angle))] *)
Definition gradient (ix iy : Z) : R * R :=
  (cos (angle ix iy), sin (angle ix iy)).

(** The dot product of the gradient at corner [(ix, iy)] with the offset
    from that corner to [(x, y)]. *)
Definition corner_dot (ix iy : Z) (x y : R) : R :=
  fst (gradient ix iy) * (x - IZR ix) + snd (gradient ix iy) * (y - IZR iy).

(** The bilinear interpolation of the four corner dot products, weighted
    by the fade of the fractional offsets. *)
Definition sample (x y : R) : R :=
  let ix := Int_part x in
  let iy := Int_part y in
  let u := fade (x - IZR ix) in
  let v := fade (y - IZR iy) in
  (1 - u) * (1 - v) * corner_dot ix iy x y
  + u * (1 - v) * corner_dot (ix + 1) iy x y
  + (1 - u) * v * corner_dot ix (iy + 1) x y
  + u * v * corner_dot (ix + 1) (iy + 1) x y.

End Spec.

(** * What the loops of the grain processor compute

    Closed forms of the values the loop bodies assign, used to state the
    properties of the loops. *)

Module GrainValues.
Import GrainProcessor.

Local Open Scope js_scope.

(** The grid whose cell [(y, x)] holds [f y x]. *)
Definition tabulate (f : nat -> nat -> JSNum) (rows cols : nat) : Grid :=
  (fun y => (fun x => f y x) <$> seq 0 cols) <$> seq 0 rows.

(** A grid being filled in row-major order: the first [done] cells hold
    their final value, the others still hold zero. *)
Definition filling (f : nat -> nat -> JSNum) (rows cols done : nat) : Grid :=
  tabulate (fun y x => if decide (y * cols + x < done)%nat then f y x else Num 0)
    rows cols.

(** The term band [i] adds to [grainValue] at pixel [(x, y)]. *)
Definition band (grainSize : JSNum) (y x i : nat) : JSNum :=
  let scale := default NaN (scales !! i) * grainSize in
  let weight := Num 1.0 / js_of_nat (i + 1) in
  _generateCoherentNoise (js_of_nat x / scale) (js_of_nat y / scale) * weight.

(** The value assigned to [grain[y][x]]. *)
Definition grain_value (grainSize : JSNum) (y x : nat) : JSNum :=
  _applyFilmCurve
    (fold_left (fun grainValue i => grainValue + band grainSize y x i)
       (seq 0 (length scales)) (Num 0)
     / js_of_nat (length scales)).

(** The value assigned to [map[y][x]] by [_createLuminanceMap]. *)
Definition luminance_value (data : Uint8ClampedArray) (width : Z) (y x : nat)
  : JSNum :=
  let index := pixel_index width y x in
  (Num 0.299 * u8_get data index + Num 0.587 * u8_get data (index + 1)
   + Num 0.114 * u8_get data (index + 2)) / Num 255.

(** The one [grainValue] that [_applyNaturalGrain] adds to the three colour
    channels of pixel [(x, y)]. *)
Definition grain_delta (data : Uint8ClampedArray) (width : Z)
    (settings : Settings) (y x : nat) : JSNum :=
  let isoParams := _getIsoParameters (iso settings) in
  let grainIntensity := strength settings * intensity isoParams in
  let grainSize := grainSize settings * size isoParams in
  grain_value grainSize y x
  * _getAdaptiveStrength (luminance_value data width y x) grainIntensity
  * Num 255.

(** The grain value for a finite positive [grainSize], as a real number:
    three bands of noise at scales 1, 2 and 4 times [grainSize], weighted
    1, 1/2 and 1/3, averaged and passed through the film curve. *)
Definition grain_real (grainSize : R) (y x : nat) : R :=
  let noise (scale : R) :=
    Spec.sample (IZR (Z.of_nat x) / (scale * grainSize))
      (IZR (Z.of_nat y) / (scale * grainSize)) in
  (tanh ((0 + noise 1 * (1 / 1) + noise 2 * (1 / 2) + noise 4 * (1 / 3)) / 3 * 2)
   * 0.5)%R.

(** The dimensions for which the two grids can be allocated. *)
Definition valid_dimensions (width height : Z) : Prop :=
  (0 <= height < 2 ^ 32)%Z /\ (height = 0%Z \/ (0 <= width < 2 ^ 32)%Z).

#[global] Instance valid_dimensions_dec (width height : Z) :
  Decision (valid_dimensions width height).
Proof. unfold valid_dimensions. apply _. Defined.

(** The byte at index [i] once the pixels before number [done] have been
    processed, [v] being the byte before the pass. *)
Definition byte_after (data : Uint8ClampedArray) (width : Z)
    (settings : Settings) (done : nat) (i : nat) (v : Z) : Z :=
  let pixel := (i `div` 4)%nat in
  let cols := Z.to_nat width in
  if decide (pixel < done /\ i `mod` 4 <> 3)%nat
  then ToUint8Clamp
         (_clamp (js_of_Z v
                  + grain_delta data width settings (pixel `div` cols)%nat
                      (pixel `mod` cols)%nat))
  else v.

(** The buffer [d] while [_applyNaturalGrain] runs on [data], after [done]
    pixels. *)
Definition pass_state (data : Uint8ClampedArray) (width : Z)
    (settings : Settings) (done : nat) (d : Uint8ClampedArray) : Prop :=
  length d = length data
  /\ forall i, d !! i = byte_after data width settings done i <$> data !! i.

End GrainValues.

(** * The properties of the pipeline, as predicates *)

Module Properties.

(** The change of the byte at index [i] between [input] and [output]. *)
Definition channel_delta (input output : Uint8ClampedArray) (i : nat)
  : option Z :=
  match output !! i, input !! i with
  | Some o, Some v => Some (o - v)%Z
  | _, _ => None
  end.





(** A token that [parseFloat] reads as a number. *)
Definition is_float_token (token : string) : bool :=
  match JSString.parseFloat token with
  | NaN => false
  | _ => true
  end.

(** A data row in the words of the design document: a line that is not
    blank, not a comment, and consists of exactly 3 white-space separated
    floats. *)
Definition float_row (line : string) : bool :=
  let trimmed := JSString.trim line in
  negb (trimmed =? "")%string && negb (JSString.startsWith trimmed "#")
  && match JSString.split_whitespace trimmed with
     | [v0; v1; v2] =>
         is_float_token v0 && is_float_token v1 && is_float_token v2
     | _ => false
     end.

(** A data row as the parser takes it: a line that is not blank, not a
    comment, not a [TITLE] or [LUT_3D_SIZE] line, and consists of exactly 3
    white-space separated tokens. *)
Definition token_row (line : string) : bool :=
  let trimmed := JSString.trim line in
  negb (trimmed =? "")%string && negb (JSString.startsWith trimmed "#")
  && negb (JSString.startsWith trimmed "TITLE")
  && negb (JSString.startsWith trimmed "LUT_3D_SIZE")
  && match JSString.split_whitespace trimmed with
     | [_; _; _] => true
     | _ => false
     end.

(** The sample the parser stores for a data row. *)
Definition row_sample (line : string) : list LUTProcessor.RGB :=
  match JSString.split_whitespace (JSString.trim line) with
  | [v0; v1; v2] =>
      [LUTProcessor.mkRGB (LUTProcessor.clamp01 (JSString.parseFloat v0))
         (LUTProcessor.clamp01 (JSString.parseFloat v1))
         (LUTProcessor.clamp01 (JSString.parseFloat v2))]
  | _ => []
  end.

(** The state of the LUT processor once [applyLUT] has made sure that it
    is initialized. *)
Definition initialized_state (env : LUTProcessor.Env) (st : LUTProcessor.State)
  : LUTProcessor.State :=
  if LUTProcessor.isInitialized st then st
  else snd (LUTProcessor.initialize env st).

(** A value a [Uint8ClampedArray] can hold. *)
Definition is_byte (v : Z) : Prop := (0 <= v <= 255)%Z.


End Properties.

(** * Concrete inputs *)

Module Examples.
Import GrainProcessor.

(** A source of randomness, for the runs that need an ambient state. *)
Definition w0 : World := mkWorld (fun _ => 0%R) 0.

(** Two red pixels side by side, and settings with a large strength. *)
Definition cx_data : Uint8ClampedArray := [255; 0; 0; 255; 255; 0; 0; 255]%Z.
Definition cx_settings : Settings := mkSettings "800" (Num 1000) (Num 1).

(** A dark pixel followed by a pixel whose green channel is 1, and the
    strength for which the grain value of the second pixel is exactly 1/2. *)
Definition tie_data : Uint8ClampedArray := [0; 0; 0; 255; 0; 1; 0; 255]%Z.
Definition tie_midtone : R :=
  (0.4 + 0.6 * exp (- ((0.299 * 0 + 0.587 * 1 + 0.114 * 0) / 255 - 0.5) ^ 2 / 0.18))%R.
Definition tie_settings : Settings :=
  mkSettings "800"
    (Num (1 / (2 * GrainValues.grain_real 1 0 1 * 0.25 * tie_midtone * 255)))
    (Num 1).

(** The identity LUT of edge length 2: every corner maps to itself. *)
Definition identity_lut : LUTProcessor.LUT :=
  LUTProcessor.mkLUT (js_of_Z 2)
    [ LUTProcessor.mkRGB (Num 0) (Num 0) (Num 0);
      LUTProcessor.mkRGB (Num 1) (Num 0) (Num 0);
      LUTProcessor.mkRGB (Num 0) (Num 1) (Num 0);
      LUTProcessor.mkRGB (Num 1) (Num 1) (Num 0);
      LUTProcessor.mkRGB (Num 0) (Num 0) (Num 1);
      LUTProcessor.mkRGB (Num 1) (Num 0) (Num 1);
      LUTProcessor.mkRGB (Num 0) (Num 1) (Num 1);
      LUTProcessor.mkRGB (Num 1) (Num 1) (Num 1) ]
    "identity".

(** A server that serves nothing, at time 0. *)
Definition offline : LUTProcessor.Env :=
  LUTProcessor.mkEnv None None (fun _ => false) (fun _ => None) 0.

(** One grey, half-transparent pixel. *)
Definition grey_pixel : ImageData := mkImageData [128; 128; 128; 77]%Z 1 1.

End Examples.

(** * Reasoning about loops *)

Section Loops.
Context {St S : Type}.

(** The invariant rule for a loop whose body returns normally and does
    not touch the ambient state [w]. *)
Lemma for_range_inv (I : nat -> S -> Prop) (body : nat -> S -> M St S)
    (w : St) (count start : nat) (s : S) :
  I start s ->
  (forall i t, start <= i < start + count -> I i t ->
     exists t', body i t w = (Normal t', w) /\ I (Datatypes.S i) t') ->
  exists t, for_range start count body s w = (Normal t, w)
            /\ I (start + count) t.
Proof.
  revert start s. induction count as [|k IH]; intros start s H0 Hstep.
  - exists s. split; [reflexivity|]. by rewrite Nat.add_0_r.
  - destruct (Hstep start s ltac:(lia) H0) as (s1 & Hb & H1).
    destruct (IH (Datatypes.S start) s1 H1) as (t & Hrun & Ht).
    { intros i u Hi Hu. apply Hstep; [lia|done]. }
    exists t. split.
    + cbn [for_range]. unfold bind. by rewrite Hb.
    + by replace (start + Datatypes.S k) with (Datatypes.S start + k) by lia.
Qed.

(** Two nested loops scanning [rows] x [cols] positions in row-major
    order, with an invariant indexed by the number of positions done. *)
Lemma for_range_nested_inv (I : nat -> S -> Prop)
    (body : nat -> nat -> S -> M St S) (w : St) (rows cols : nat) (s : S) :
  I 0 s ->
  (forall y x t, y < rows -> x < cols -> I (y * cols + x) t ->
     exists t', body y x t w = (Normal t', w) /\ I (y * cols + x + 1) t') ->
  exists t,
    for_range 0 rows (fun y t => for_range 0 cols (fun x t => body y x t) t) s w
      = (Normal t, w)
    /\ I (rows * cols) t.
Proof.
  intros H0 Hstep.
  destruct (for_range_inv (fun y t => I (y * cols) t)
              (fun y t => for_range 0 cols (fun x t => body y x t) t)
              w rows 0 s) as (t & Hrun & Ht).
  - done.
  - intros y u Hy Hu.
    destruct (for_range_inv (fun x t => I (y * cols + x) t)
                (fun x t => body y x t) w cols 0 u) as (t & Hrun & Ht).
    + by rewrite Nat.add_0_r.
    + intros x v Hx Hv. destruct (Hstep y x v) as (v' & Hb & Hv'); [lia|lia|done|].
      exists v'. split; [done|]. by replace (y * cols + Datatypes.S x)
        with (y * cols + x + 1) by lia.
    + exists t. split; [done|].
      by replace (Datatypes.S y * cols) with (y * cols + (0 + cols)) by lia.
  - exists t. split; done.
Qed.
End Loops.

(** * Finite numbers *)

Lemma Int_part_IZR (z : Z) : Int_part (IZR z) = z.
Proof. symmetry. apply Int_part_spec. lra. Qed.

Lemma Int_part_bounds (x : R) : (IZR (Int_part x) <= x < IZR (Int_part x) + 1)%R.
Proof. destruct (base_Int_part x). lra. Qed.

Lemma Int_part_plus_IZR (z : Z) (x : R) :
  Int_part (IZR z + x) = (z + Int_part x)%Z.
Proof.
  symmetry. apply Int_part_spec. rewrite plus_IZR.
  pose proof (Int_part_bounds x). lra.
Qed.

Lemma Int_part_small (x : R) : (0 <= x < 1)%R -> Int_part x = 0%Z.
Proof. intros H. symmetry. apply Int_part_spec. simpl. lra. Qed.

(** * The noise primitive *)

Module NoiseFacts.
Import GrainProcessor.

Local Open Scope R_scope.

Lemma gradientDot_finite (ix iy : Z) (x y : R) :
  _gradientDot (js_of_Z ix) (js_of_Z iy) (Num x) (Num y)
  = Num (fst (Spec.gradient ix iy) * x + snd (Spec.gradient ix iy) * y).
Proof.
  unfold _gradientDot, Spec.gradient, Spec.angle, frac_part, js_of_Z. simpl.
  set (random := sin (IZR ix * 12.9898 + IZR iy * 78.233) * 43758.5453).
  replace ((random + - IZR (Int_part random)) * PI * 2)
    with ((random - IZR (Int_part random)) * (2 * PI)) by ring.
  reflexivity.
Qed.

Lemma fade_finite (t : R) : _fade (Num t) = Num (Spec.fade t).
Proof. unfold _fade, Spec.fade. simpl. f_equal. ring. Qed.

Lemma generateCoherentNoise_finite (x y : R) :
  _generateCoherentNoise (Num x) (Num y) = Num (Spec.sample x y).
Proof.
  unfold _generateCoherentNoise. cbn [Math_floor js_sub js_add js_neg].
  rewrite <- !plus_IZR.
  change (Num (IZR ?z)) with (js_of_Z z).
  rewrite !gradientDot_finite, !fade_finite.
  unfold _lerp, Spec.sample, Spec.corner_dot. simpl. f_equal.
  rewrite !plus_IZR. unfold Rminus. ring.
Qed.

End NoiseFacts.

(** * The grids of the grain processor *)

Module GridFacts.
Import GrainProcessor GrainValues.

Section WithState.
Context {St : Type}.
Implicit Types (w : St) (grid : Grid).

Lemma Array_valid {A} (n : Z) (fill : A) w :
  (0 <= n < 2 ^ 32)%Z ->
  Array_ n fill w = (Normal (replicate (Z.to_nat n) fill), w).
Proof.
  intros Hn. unfold Array_.
  destruct (n <? 0)%Z eqn:H1; [lia|].
  destruct (2 ^ 32 <=? n)%Z eqn:H2; [lia|]. reflexivity.
Qed.

Lemma Array_invalid {A} (n : Z) (fill : A) w :
  ~ (0 <= n < 2 ^ 32)%Z -> Array_ n fill w = (Throw RangeError, w).
Proof.
  intros Hn. unfold Array_.
  destruct (n <? 0)%Z eqn:H1; [reflexivity|].
  destruct (2 ^ 32 <=? n)%Z eqn:H2; [reflexivity|lia].
Qed.

Lemma new_grid_valid (width height : Z) w :
  valid_dimensions width height ->
  new_grid width height w
  = (Normal (replicate (Z.to_nat height) (replicate (Z.to_nat width) (Num 0))),
     w).
Proof.
  intros [Hh Hw]. unfold new_grid, bind. rewrite Array_valid by done.
  destruct (Z.to_nat height) as [|n] eqn:Hn; [reflexivity|]. cbn [replicate].
  destruct Hw as [->|Hw]; [done|]. rewrite Array_valid by done.
  cbn [length]. by rewrite length_replicate.
Qed.

Lemma new_grid_invalid (width height : Z) w :
  ~ valid_dimensions width height ->
  new_grid width height w = (Throw RangeError, w).
Proof.
  intros Hbad. unfold new_grid, bind.
  destruct (decide (0 <= height < 2 ^ 32)%Z) as [Hh|Hh].
  - rewrite Array_valid by done.
    destruct (Z.to_nat height) as [|n] eqn:Hn.
    + exfalso. apply Hbad. split; [done|]. left. lia.
    + cbn [replicate]. rewrite Array_invalid; [done|].
      intros Hw. apply Hbad. split; [done|]. by right.
  - by rewrite Array_invalid.
Qed.

(** A loop whose body only computes is a fold. *)
Lemma for_range_ret {S} (f : nat -> S -> S) (count start : nat) (s : S) w :
  for_range start count (fun i t => ret (f i t)) s w
  = (Normal (fold_left (fun t i => f i t) (seq start count) s), w).
Proof.
  revert start s. induction count as [|k IH]; intros start s; [done|].
  cbn [for_range seq fold_left]. unfold bind, ret at 1. apply IH.
Qed.

Lemma lookup_tabulate (f : nat -> nat -> JSNum) (rows cols y : nat) :
  (y < rows)%nat ->
  tabulate f rows cols !! y = Some ((fun x => f y x) <$> seq 0 cols).
Proof.
  intros Hy. unfold tabulate. rewrite list_lookup_fmap.
  by rewrite lookup_seq_lt.
Qed.

Lemma grid_get_tabulate (f : nat -> nat -> JSNum) (rows cols y x : nat) w :
  (y < rows)%nat -> (x < cols)%nat ->
  grid_get (tabulate f rows cols) y x w = (Normal (f y x), w).
Proof.
  intros Hy Hx. unfold grid_get. rewrite lookup_tabulate by done.
  rewrite list_lookup_fmap, lookup_seq_lt by done. reflexivity.
Qed.

Lemma filling_start f rows cols :
  filling f rows cols 0 = replicate rows (replicate cols (Num 0)).
Proof.
  unfold filling, tabulate. apply list_eq. intros y.
  rewrite list_lookup_fmap.
  destruct (decide (y < rows)%nat) as [Hy|Hy].
  - rewrite lookup_seq_lt, lookup_replicate_2 by done. simpl. f_equal.
    apply list_eq. intros x. rewrite list_lookup_fmap.
    destruct (decide (x < cols)%nat) as [Hx|Hx].
    + by rewrite lookup_seq_lt, lookup_replicate_2 by done.
    + rewrite lookup_seq_ge by lia. symmetry.
      apply lookup_replicate_None. lia.
  - rewrite lookup_seq_ge by lia. symmetry. apply lookup_replicate_None. lia.
Qed.

Lemma filling_end f rows cols :
  filling f rows cols (rows * cols) = tabulate f rows cols.
Proof.
  unfold filling, tabulate. apply list_eq. intros y.
  rewrite !list_lookup_fmap.
  destruct (decide (y < rows)%nat) as [Hy|Hy].
  - rewrite lookup_seq_lt by done. simpl. f_equal.
    apply list_eq. intros x. rewrite !list_lookup_fmap.
    destruct (decide (x < cols)%nat) as [Hx|Hx].
    + rewrite lookup_seq_lt by done. simpl.
      rewrite decide_True; [done|]. nia.
    + by rewrite lookup_seq_ge by lia.
  - by rewrite lookup_seq_ge by lia.
Qed.

Lemma filling_step f rows cols y x w :
  (y < rows)%nat -> (x < cols)%nat ->
  grid_set (filling f rows cols (y * cols + x)) y x (f y x) w
  = (Normal (filling f rows cols (y * cols + x + 1)), w).
Proof.
  intros Hy Hx. unfold grid_set, filling.
  rewrite lookup_tabulate by done. unfold ret, array_set.
  rewrite decide_True by (by rewrite length_fmap, length_seq).
  do 2 f_equal. apply list_eq. intros y'. unfold tabulate.
  destruct (decide (y' = y)) as [->|Hne].
  - rewrite list_lookup_insert_eq by (by rewrite length_fmap, length_seq).
    rewrite list_lookup_fmap, lookup_seq_lt by done. simpl. f_equal.
    apply list_eq. intros x'.
    destruct (decide (x' = x)) as [->|Hnx].
    + rewrite list_lookup_insert_eq by (by rewrite length_fmap, length_seq).
      rewrite list_lookup_fmap, lookup_seq_lt by done. simpl.
      by rewrite decide_True by lia.
    + rewrite list_lookup_insert_ne by done. rewrite !list_lookup_fmap.
      destruct (decide (x' < cols)%nat) as [Hx'|Hx'].
      * rewrite lookup_seq_lt by done. simpl.
        destruct (decide (y * cols + x' < y * cols + x)%nat),
                 (decide (y * cols + x' < y * cols + x + 1)%nat);
          (done || lia).
      * by rewrite lookup_seq_ge by lia.
  - rewrite list_lookup_insert_ne by done. rewrite !list_lookup_fmap.
    destruct (decide (y' < rows)%nat) as [Hy'|Hy'].
    + rewrite lookup_seq_lt by done. simpl. f_equal.
      apply list_eq. intros x'. rewrite !list_lookup_fmap.
      destruct (decide (x' < cols)%nat) as [Hx'|Hx'].
      * rewrite lookup_seq_lt by done. simpl.
        destruct (decide (y' * cols + x' < y * cols + x)%nat),
                 (decide (y' * cols + x' < y * cols + x + 1)%nat);
          (done || nia).
      * by rewrite lookup_seq_ge by lia.
    + by rewrite lookup_seq_ge by lia.
Qed.

(** Two nested loops that assign [f y x] to every cell of a fresh grid
    produce the tabulated grid. *)
Lemma fill_grid (f : nat -> nat -> JSNum)
    (body : nat -> nat -> Grid -> M St Grid) (rows cols : nat) w :
  (forall y x grid, body y x grid w = grid_set grid y x (f y x) w) ->
  for_range 0 rows (fun y grid =>
    for_range 0 cols (fun x grid => body y x grid) grid)
    (replicate rows (replicate cols (Num 0))) w
  = (Normal (tabulate f rows cols), w).
Proof.
  intros Hbody.
  destruct (for_range_nested_inv
              (fun done grid => grid = filling f rows cols done)
              body w rows cols (replicate rows (replicate cols (Num 0))))
    as (t & Hrun & Ht).
  - by rewrite filling_start.
  - intros y x t Hy Hx ->. eexists. split; [|reflexivity].
    rewrite Hbody. by apply filling_step.
  - rewrite Hrun, Ht. by rewrite filling_end.
Qed.
End WithState.

End GridFacts.

(** * The grain compositing stage *)

Module GrainFacts.
Import GrainProcessor GrainValues GridFacts.

Lemma length_u8_set (d : Uint8ClampedArray) i v :
  length (u8_set d i v) = length d.
Proof. unfold u8_set. destruct (i <? 0)%Z; [done|]. apply length_insert. Qed.

Lemma lookup_u8_set (d : Uint8ClampedArray) (i : Z) (v : JSNum) (j : nat) :
  (0 <= i)%Z ->
  u8_set d i v !! j
  = if decide (Z.to_nat i = j /\ (Z.to_nat i < length d)%nat)
    then Some (ToUint8Clamp v) else d !! j.
Proof.
  intros Hi. unfold u8_set. destruct (i <? 0)%Z eqn:Hneg; [lia|].
  apply list_lookup_insert.
Qed.

Lemma generateMonochromaticGrain_valid (width height : Z) (grainSize : JSNum)
    (w : World) :
  valid_dimensions width height ->
  _generateMonochromaticGrain width height grainSize w
  = (Normal (tabulate (grain_value grainSize) (Z.to_nat height) (Z.to_nat width)),
     w).
Proof.
  intros Hdim. unfold _generateMonochromaticGrain, bind.
  rewrite new_grid_valid by done.
  apply fill_grid. intros y x grid. unfold bind.
  by rewrite for_range_ret.
Qed.

Lemma generateMonochromaticGrain_invalid (width height : Z) (grainSize : JSNum)
    (w : World) :
  ~ valid_dimensions width height ->
  _generateMonochromaticGrain width height grainSize w = (Throw RangeError, w).
Proof.
  intros Hdim. unfold _generateMonochromaticGrain, bind.
  by rewrite new_grid_invalid.
Qed.

Lemma createLuminanceMap_valid (data : Uint8ClampedArray) (width height : Z)
    (w : World) :
  valid_dimensions width height ->
  _createLuminanceMap data width height w
  = (Normal (tabulate (luminance_value data width) (Z.to_nat height)
               (Z.to_nat width)), w).
Proof.
  intros Hdim. unfold _createLuminanceMap, bind.
  rewrite new_grid_valid by done.
  by apply fill_grid.
Qed.

Lemma createLuminanceMap_invalid (data : Uint8ClampedArray) (width height : Z)
    (w : World) :
  ~ valid_dimensions width height ->
  _createLuminanceMap data width height w = (Throw RangeError, w).
Proof.
  intros Hdim. unfold _createLuminanceMap, bind.
  by rewrite new_grid_invalid.
Qed.

Lemma pixel_index_nat (width : Z) (y x : nat) :
  (0 <= width)%Z ->
  pixel_index width y x = Z.of_nat (4 * (y * Z.to_nat width + x)).
Proof. intros Hw. unfold pixel_index. nia. Qed.

Lemma iso800 : _getIsoParameters "800" = params_800.
Proof. reflexivity. Qed.

Lemma u8_get_set_ne (d : Uint8ClampedArray) (i j : Z) (v : JSNum) :
  (0 <= i)%Z -> (0 <= j)%Z -> i <> j -> u8_get (u8_set d i v) j = u8_get d j.
Proof.
  intros Hi Hj Hne. unfold u8_get.
  destruct (j <? 0)%Z; [done|].
  rewrite lookup_u8_set by done. case_decide; [exfalso; lia|done].
Qed.

Lemma u8_get_nat (d : Uint8ClampedArray) (n : nat) :
  u8_get d (Z.of_nat n) = from_option js_of_Z NaN (d !! n).
Proof.
  unfold u8_get. destruct (Z.ltb_spec (Z.of_nat n) 0) as [H|H]; [lia|].
  rewrite Nat2Z.id. by destruct (d !! n).
Qed.

Lemma pixel_step (data d : Uint8ClampedArray) (width : Z) (settings : Settings)
    (p : nat) (gv : JSNum) :
  pass_state data width settings p d ->
  gv = grain_delta data width settings (p `div` Z.to_nat width)
         (p `mod` Z.to_nat width) ->
  let idx := Z.of_nat (4 * p) in
  let d1 := u8_set d idx (_clamp (u8_get d idx + gv)) in
  let d2 := u8_set d1 (idx + 1) (_clamp (u8_get d1 (idx + 1) + gv)) in
  let d3 := u8_set d2 (idx + 2) (_clamp (u8_get d2 (idx + 2) + gv)) in
  pass_state data width settings (p + 1) d3.
Proof.
  intros [Hlen Hd] Hgv idx d1 d2 d3.
  assert (Hread : forall c : nat, (c < 3)%nat ->
            data !! (4 * p + c)%nat = d !! (4 * p + c)%nat).
  { intros c Hc. rewrite Hd. destruct (data !! _) as [v|]; [|done]. simpl.
    unfold byte_after. cbv zeta. by rewrite decide_False by lia. }
  split.
  { unfold d3, d2, d1. by rewrite !length_u8_set. }
  intros i. unfold d3, d2, d1.
  rewrite !lookup_u8_set by lia. rewrite !length_u8_set.
  rewrite !u8_get_set_ne by lia.
  assert (Hget : forall c : nat, (c < 3)%nat ->
            u8_get d (idx + Z.of_nat c) = u8_get data (idx + Z.of_nat c)).
  { intros c Hc. unfold idx. rewrite <- Nat2Z.inj_add, !u8_get_nat.
    by rewrite Hread. }
  pose proof (Hget 0%nat ltac:(lia)) as H0.
  pose proof (Hget 1%nat ltac:(lia)) as H1.
  pose proof (Hget 2%nat ltac:(lia)) as H2.
  rewrite Z.add_0_r in H0. change (Z.of_nat 1) with 1%Z in H1.
  change (Z.of_nat 2) with 2%Z in H2. rewrite H0, H1, H2.
  assert (Hfin : forall c : nat, (c < 3)%nat -> i = (4 * p + c)%nat ->
            (i < length d)%nat ->
            Some (ToUint8Clamp (_clamp (u8_get data (idx + Z.of_nat c) + gv)))
            = byte_after data width settings (p + 1) i <$> data !! i).
  { intros c Hc -> Hin. unfold idx. rewrite <- Nat2Z.inj_add, u8_get_nat.
    destruct (data !! (4 * p + c)%nat) as [v|] eqn:Hv.
    - cbn [fmap option_fmap option_map from_option].
      unfold byte_after. cbv zeta. rewrite decide_True by lia.
      replace ((4 * p + c) `div` 4)%nat with p by lia. by rewrite Hgv.
    - apply lookup_ge_None in Hv. lia. }
  repeat case_decide.
  - apply (Hfin 2%nat); lia.
  - apply (Hfin 1%nat); lia.
  - pose proof (Hfin 0%nat) as F0. cbn [Z.of_nat] in F0.
    rewrite Z.add_0_r in F0. apply F0; lia.
  - rewrite Hd. destruct (data !! i) as [v|] eqn:Hv; [|done].
    cbn [fmap option_fmap option_map].
    apply lookup_lt_Some in Hv.
    unfold byte_after. cbv zeta.
    destruct (decide ((i `div` 4 < p)%nat /\ (i `mod` 4)%nat <> 3%nat)),
             (decide ((i `div` 4 < p + 1)%nat /\ (i `mod` 4)%nat <> 3%nat));
      first [done | lia].
Qed.


Lemma pass_state_start data width settings : pass_state data width settings 0 data.
Proof.
  split; [done|]. intros i. destruct (data !! i) as [v|]; [|done].
  cbn [fmap option_fmap option_map]. unfold byte_after. cbv zeta.
  by rewrite decide_False by lia.
Qed.

Lemma row_major_div (y x cols : nat) :
  (x < cols)%nat -> ((y * cols + x) `div` cols = y)%nat.
Proof. intros Hx. symmetry. apply (Nat.div_unique _ _ _ x); lia. Qed.

Lemma row_major_mod (y x cols : nat) :
  (x < cols)%nat -> ((y * cols + x) `mod` cols = x)%nat.
Proof. intros Hx. symmetry. apply (Nat.mod_unique _ _ y); lia. Qed.

Lemma applyNaturalGrain_valid (data : Uint8ClampedArray) (width height : Z)
    (settings : Settings) (w : World) :
  valid_dimensions width height ->
  exists out,
    _applyNaturalGrain data width height settings w = (Normal out, w)
    /\ pass_state data width settings (Z.to_nat height * Z.to_nat width) out.
Proof.
  intros Hdim. unfold _applyNaturalGrain, bind.
  rewrite createLuminanceMap_valid, generateMonochromaticGrain_valid by done.
  apply (for_range_nested_inv (pass_state data width settings)).
  - apply pass_state_start.
  - intros y x d Hy Hx Hd. unfold bind.
    rewrite !grid_get_tabulate by done.
    rewrite pixel_index_nat by lia.
    eexists. split; [reflexivity|].
    apply pixel_step; [done|].
    rewrite row_major_div, row_major_mod by done. reflexivity.
Qed.

Lemma applyNaturalGrain_invalid (data : Uint8ClampedArray) (width height : Z)
    (settings : Settings) (w : World) :
  ~ valid_dimensions width height ->
  _applyNaturalGrain data width height settings w = (Throw RangeError, w).
Proof.
  intros Hdim. unfold _applyNaturalGrain, bind.
  by rewrite createLuminanceMap_invalid.
Qed.

Lemma applyNaturalGrain_Normal (data : Uint8ClampedArray) (width height : Z)
    (settings : Settings) (w w' : World) (out : Uint8ClampedArray) :
  _applyNaturalGrain data width height settings w = (Normal out, w') ->
  valid_dimensions width height /\ w' = w
  /\ pass_state data width settings (Z.to_nat height * Z.to_nat width) out.
Proof.
  intros Hrun. destruct (decide (valid_dimensions width height)) as [Hv|Hv].
  - destruct (applyNaturalGrain_valid data width height settings w Hv)
      as (out0 & Hrun0 & Hst).
    rewrite Hrun0 in Hrun. by simplify_eq.
  - rewrite applyNaturalGrain_invalid in Hrun by done. discriminate.
Qed.

Lemma pass_state_channel data width settings rows (out : Uint8ClampedArray)
    (y x c : nat) (v : Z) :
  pass_state data width settings (rows * Z.to_nat width) out ->
  (y < rows)%nat -> (x < Z.to_nat width)%nat -> (c < 3)%nat ->
  data !! (4 * (y * Z.to_nat width + x) + c)%nat = Some v ->
  out !! (4 * (y * Z.to_nat width + x) + c)%nat
  = Some (ToUint8Clamp (_clamp (js_of_Z v + grain_delta data width settings y x))).
Proof.
  intros [_ Hst] Hy Hx Hc Hv. rewrite Hst, Hv.
  cbn [fmap option_fmap option_map]. unfold byte_after. cbv zeta.
  rewrite decide_True by nia.
  replace ((4 * (y * Z.to_nat width + x) + c) `div` 4)%nat
    with (y * Z.to_nat width + x)%nat by lia.
  by rewrite row_major_div, row_major_mod by done.
Qed.

End GrainFacts.

(** * Numbers computed by the grain processor *)

Module GrainNumerics.
Import GrainProcessor GrainValues GridFacts GrainFacts NoiseFacts Examples.

Local Open Scope R_scope.

Lemma js_div_finite (x y : R) : y <> 0 -> (Num x / Num y)%js = Num (x / y).
Proof. intros Hy. unfold js_div. by destruct (Req_dec_T y 0). Qed.

Lemma tanh_quotient (x : R) :
  tanh x = (exp x - exp (- x)) / (exp x + exp (- x)).
Proof.
  unfold tanh, sinh, cosh.
  pose proof (exp_pos x). pose proof (exp_pos (- x)). field. lra.
Qed.


(** A lower bound of [tanh] on the non-negative reals. *)
Lemma tanh_lower (t : R) : 0 <= t -> t / (1 + t) <= tanh t.
Proof.
  intros Ht. rewrite tanh_quotient, exp_Ropp.
  pose proof (exp_ineq1_le t) as Ha. set (a := exp t) in *.
  assert (Hpos : 0 < a) by lra.
  replace ((a - / a) / (a + / a)) with ((a * a - 1) / (a * a + 1))
    by (field; nra).
  apply Rmult_le_reg_r with ((1 + t) * (a * a + 1)); [nra|].
  replace (t / (1 + t) * ((1 + t) * (a * a + 1))) with (t * (a * a + 1))
    by (field; lra).
  replace ((a * a - 1) / (a * a + 1) * ((1 + t) * (a * a + 1)))
    with ((a * a - 1) * (1 + t)) by (field; nra).
  nra.
Qed.

Lemma grain_value_finite (g : R) (y x : nat) :
  0 < g -> grain_value (Num g) y x = Num (grain_real g y x).
Proof.
  intros Hg. unfold grain_value, band, grain_real.
  cbn [length scales seq fold_left lookup list_lookup default from_option id].
  unfold js_of_nat, Datatypes.id.
  change (Z.of_nat (0 + 1)) with 1%Z. change (Z.of_nat (1 + 1)) with 2%Z.
  change (Z.of_nat (2 + 1)) with 3%Z. change (Z.of_nat 3) with 3%Z.
  cbn [js_mul].
  rewrite !js_div_finite by lra.
  rewrite !generateCoherentNoise_finite.
  unfold _applyFilmCurve. cbn [js_mul js_add].
  rewrite js_div_finite by lra. cbn [js_mul Math_tanh].
  f_equal. f_equal. f_equal.
  replace (1.0 * g) with (1 * g) by lra.
  replace (2.0 * g) with (2 * g) by lra.
  replace (4.0 * g) with (4 * g) by lra.
  lra.
Qed.



Lemma angle_origin : Spec.angle 0 0 = 0.
Proof.
  unfold Spec.angle.
  replace (0 * 12.9898 + 0 * 78.233) with 0 by lra.
  rewrite sin_0, Rmult_0_l.
  replace (frac_part 0) with 0; [lra|].
  unfold frac_part. rewrite (Int_part_IZR 0). lra.
Qed.

Lemma gradient_origin : Spec.gradient 0 0 = (1, 0).
Proof. unfold Spec.gradient. by rewrite angle_origin, cos_0, sin_0. Qed.

Lemma fade_0 : Spec.fade 0 = 0.
Proof. unfold Spec.fade. lra. Qed.

Lemma sample_1_0 : Spec.sample 1 0 = 0.
Proof.
  unfold Spec.sample. rewrite (Int_part_IZR 1), (Int_part_IZR 0).
  cbv zeta. replace (1 - 1) with 0 by lra. replace (0 - 0) with 0 by lra.
  rewrite fade_0. unfold Spec.corner_dot. lra.
Qed.

Lemma sample_x_0 (x : R) :
  0 <= x < 1 ->
  Spec.sample x 0
  = (1 - Spec.fade x) * x + Spec.fade x * (cos (Spec.angle 1 0) * (x - 1)).
Proof.
  intros Hx. unfold Spec.sample. rewrite (Int_part_small x), (Int_part_IZR 0) by done.
  cbv zeta. replace (0 - 0) with 0 by lra. replace (x - 0) with x by lra.
  rewrite fade_0. unfold Spec.corner_dot.
  change (0 + 1)%Z with 1%Z. rewrite gradient_origin.
  unfold Spec.gradient. cbn [fst snd]. lra.
Qed.

Lemma sample_half_0 : 0 <= Spec.sample (1 / 2) 0.
Proof.
  rewrite sample_x_0 by lra. pose proof (COS_bound (Spec.angle 1 0)) as Hc.
  unfold Spec.fade. nra.
Qed.

Lemma sample_quarter_0 : 0.14 <= Spec.sample (1 / 4) 0.
Proof.
  rewrite sample_x_0 by lra. pose proof (COS_bound (Spec.angle 1 0)) as Hc.
  unfold Spec.fade. nra.
Qed.

Lemma grain_real_1_0 : 0.015 <= grain_real 1 0 1.
Proof.
  unfold grain_real. cbv zeta. change (Z.of_nat 1) with 1%Z.
  change (Z.of_nat 0) with 0%Z.
  replace (1 / (1 * 1)) with 1 by lra. replace (0 / (1 * 1)) with 0 by lra.
  replace (1 / (2 * 1)) with (1 / 2) by lra. replace (0 / (2 * 1)) with 0 by lra.
  replace (1 / (4 * 1)) with (1 / 4) by lra. replace (0 / (4 * 1)) with 0 by lra.
  rewrite sample_1_0.
  pose proof sample_half_0 as Hh. pose proof sample_quarter_0 as Hq.
  set (a := Spec.sample (1 / 2) 0) in *. set (b := Spec.sample (1 / 4) 0) in *.
  set (t := (0 + 0 * (1 / 1) + a * (1 / 2) + b * (1 / 3)) / 3 * 2).
  assert (Ht : 0.031 <= t) by (unfold t; lra).
  pose proof (tanh_lower t ltac:(lra)) as Hl.
  assert (0.03 <= t / (1 + t)).
  { apply Rmult_le_reg_r with (1 + t); [lra|].
    replace (t / (1 + t) * (1 + t)) with t by (field; lra). lra. }
  lra.
Qed.

Lemma clamp_finite (x : R) : _clamp (Num x) = Num (Rmax 0 (Rmin 255 x)).
Proof. reflexivity. Qed.

Lemma store_clamp_high (x : R) : 255 <= x -> ToUint8Clamp (_clamp (Num x)) = 255%Z.
Proof.
  intros Hx. rewrite clamp_finite, Rmin_left, Rmax_right by lra.
  unfold ToUint8Clamp.
  destruct (Rle_dec 255 0); [lra|]. destruct (Rle_dec 255 255); [done|lra].
Qed.

Lemma adaptiveStrength_finite (l b : R) :
  _getAdaptiveStrength (Num l) (Num b)
  = Num (b * (0.4 + 0.6 * exp (- (l - 0.5) ^ 2 / 0.18))).
Proof.
  unfold _getAdaptiveStrength. cbn [js_sub js_neg js_add Math_pow].
  rewrite js_div_finite by lra. cbn [Math_exp js_mul js_add].
  reflexivity.
Qed.

Lemma cx_grain_delta (tail : Uint8ClampedArray) :
  exists gd,
    grain_delta (cx_data ++ tail) 2 cx_settings 0 1 = Num gd /\ 255 <= gd.
Proof.
  unfold grain_delta, cx_settings. cbn [iso strength grainSize].
  rewrite iso800. cbn [intensity size params_800 js_mul].
  replace (1 * 1.0) with 1 by lra. rewrite grain_value_finite by lra.
  assert (Hl : luminance_value (cx_data ++ tail) 2 0 1
               = Num ((0.299 * 255 + 0.587 * 0 + 0.114 * 0) / 255)).
  { unfold luminance_value, pixel_index. simpl.
    destruct (Req_dec_T 255 0); [lra|done]. }
  rewrite Hl, adaptiveStrength_finite. cbn [js_mul].
  eexists. split; [reflexivity|].
  pose proof grain_real_1_0 as Hg.
  pose proof (exp_pos (- ((0.299 * 255 + 0.587 * 0 + 0.114 * 0) / 255 - 0.5) ^ 2 / 0.18)) as He.
  set (e := exp _) in *. set (gr := grain_real 1 0 1) in *.
  nra.
Qed.


Lemma round_half_even_IZR (z : Z) : round_half_even (IZR z) = z.
Proof.
  unfold round_half_even. rewrite Int_part_IZR.
  destruct (Rlt_dec (IZR z + 1 / 2) (IZR z)); [lra|].
  destruct (Rlt_dec (IZR z) (IZR z + 1 / 2)); [done|lra].
Qed.

Lemma store_in_range (x : R) :
  0 <= x <= 255 -> ToUint8Clamp (_clamp (Num x)) = round_half_even x.
Proof.
  intros Hx. rewrite clamp_finite, Rmin_right, Rmax_right by lra.
  unfold ToUint8Clamp.
  destruct (Rle_dec x 0).
  - replace x with (IZR 0) by lra. by rewrite round_half_even_IZR.
  - destruct (Rle_dec 255 x); [|done].
    replace x with (IZR 255) by lra. by rewrite round_half_even_IZR.
Qed.

Lemma store_clamp_low (x : R) : x <= 0 -> ToUint8Clamp (_clamp (Num x)) = 0%Z.
Proof.
  intros Hx. rewrite clamp_finite.
  assert (Rmax 0 (Rmin 255 x) = 0) as ->.
  { rewrite Rmin_right by lra. by rewrite Rmax_left by lra. }
  unfold ToUint8Clamp. destruct (Rle_dec 0 0); [done|lra].
Qed.

Lemma ToUint8Clamp_range (v : JSNum) : (0 <= ToUint8Clamp v <= 255)%Z.
Proof.
  destruct v as [| | |x]; cbn [ToUint8Clamp]; try lia.
  destruct (Rle_dec x 0); [lia|]. destruct (Rle_dec 255 x); [lia|].
  unfold round_half_even. pose proof (Int_part_bounds x) as Hf.
  set (f := Int_part x) in *.
  assert (Hlo : IZR 0 < IZR (f + 1)) by (rewrite plus_IZR; lra).
  assert (Hhi : IZR f < IZR 255) by lra.
  apply lt_IZR in Hlo, Hhi.
  repeat match goal with |- context [if ?c then _ else _] => destruct c end; lia.
Qed.

Lemma clamp_range (value : JSNum) :
  match _clamp value with
  | Num r => 0 <= r <= 255
  | NaN => value = NaN
  | _ => False
  end.
Proof.
  destruct value as [| | |x]; cbn; try done; try lra.
  all: unfold Rmax, Rmin.
  all: repeat match goal with
         | |- context [Rle_dec ?a ?b] => destruct (Rle_dec a b)
         end; lra.
Qed.


(** ** The grain stage on the two red pixels *)

Lemma cx_run (tail : Uint8ClampedArray) :
  exists out,
    _applyNaturalGrain (cx_data ++ tail) 2 1 cx_settings w0 = (Normal out, w0)
    /\ out !! 4%nat = Some 255%Z /\ out !! 5%nat = Some 255%Z.
Proof.
  assert (Hv : valid_dimensions 2 1) by (unfold valid_dimensions; lia).
  destruct (applyNaturalGrain_valid (cx_data ++ tail) 2 1 cx_settings w0 Hv)
    as (out & Hrun & Hst).
  exists out. split; [done|].
  destruct (cx_grain_delta tail) as (gd & Hgd & Hbig).
  pose proof (pass_state_channel (cx_data ++ tail) 2 cx_settings 1 out 0 1 0 255
                Hst) as HR.
  pose proof (pass_state_channel (cx_data ++ tail) 2 cx_settings 1 out 0 1 1 0
                Hst) as HG.
  rewrite Hgd in HR, HG. unfold js_of_Z in HR, HG. cbn [js_add] in HR, HG.
  rewrite store_clamp_high in HR, HG by lra.
  split; [apply HR|apply HG]; first [lia|done].
Qed.

Lemma cx_run_nil :
  exists out,
    _applyNaturalGrain cx_data 2 1 cx_settings w0 = (Normal out, w0)
    /\ out !! 4%nat = Some 255%Z /\ out !! 5%nat = Some 255%Z.
Proof. pose proof (cx_run []) as H. by rewrite app_nil_r in H. Qed.

(** ** A grain value of exactly one half *)

Lemma tie_grain_delta : grain_delta tie_data 2 tie_settings 0 1 = Num (1 / 2).
Proof.
  unfold grain_delta, tie_settings. cbn [iso strength grainSize].
  rewrite iso800. cbn [intensity size params_800 js_mul].
  replace (1 * 1.0) with 1 by lra. rewrite grain_value_finite by lra.
  assert (Hl : luminance_value tie_data 2 0 1
               = Num ((0.299 * 0 + 0.587 * 1 + 0.114 * 0) / 255)).
  { unfold luminance_value, pixel_index. simpl.
    destruct (Req_dec_T 255 0); [lra|done]. }
  rewrite Hl, adaptiveStrength_finite. cbn [js_mul]. fold tie_midtone.
  pose proof grain_real_1_0 as Hg.
  assert (Hm : 0 < tie_midtone).
  { unfold tie_midtone.
    match goal with |- context [exp ?t] => pose proof (exp_pos t) end. lra. }
  f_equal. field. lra.
Qed.

Lemma store_half : ToUint8Clamp (_clamp (Num (0 + 1 / 2))) = 0%Z.
Proof.
  rewrite store_in_range by lra. unfold round_half_even.
  rewrite (Int_part_small (0 + 1 / 2)) by lra.
  destruct (Rlt_dec (0 + 1 / 2) (0 + 1 / 2)); [lra|]. done.
Qed.

Lemma store_one_and_half : ToUint8Clamp (_clamp (Num (1 + 1 / 2))) = 2%Z.
Proof.
  rewrite store_in_range by lra. unfold round_half_even.
  rewrite (Int_part_plus_IZR 1 (1 / 2)), (Int_part_small (1 / 2)) by lra.
  change (1 + 0)%Z with 1%Z.
  destruct (Rlt_dec (1 + 1 / 2) (1 + 1 / 2)); [lra|]. done.
Qed.

End GrainNumerics.

(** * The properties of the grain processor *)

Module GrainTheorems.
Import GrainProcessor GrainValues GridFacts GrainFacts NoiseFacts Examples.
Import GrainNumerics Properties.








(** Grain values halfway between two integers are set apart for a
    reason: the store rounds a tie to the even byte, so with a grain value
    of exactly 1/2 a red channel of 0 stays 0 while a green channel of 1
    becomes 2. *)
Lemma grain_deltas_differ_at_rounding_tie :
  exists out,
    _applyNaturalGrain tie_data 2 1 tie_settings w0 = (Normal out, w0)
    /\ channel_delta tie_data out 4 = Some 0%Z
    /\ channel_delta tie_data out 5 = Some 1%Z.
Proof.
  assert (Hv : valid_dimensions 2 1) by (unfold valid_dimensions; lia).
  destruct (applyNaturalGrain_valid tie_data 2 1 tie_settings w0 Hv)
    as (out & Hrun & Hst).
  exists out. split; [done|].
  pose proof (pass_state_channel tie_data 2 tie_settings 1 out 0 1 0 0 Hst) as HR.
  pose proof (pass_state_channel tie_data 2 tie_settings 1 out 0 1 1 1 Hst) as HG.
  rewrite tie_grain_delta in HR, HG. unfold js_of_Z in HR, HG.
  cbn [js_add] in HR, HG. rewrite store_half in HR. rewrite store_one_and_half in HG.
  unfold channel_delta. split.
  - change 4%nat with (4 * (0 * Z.to_nat 2 + 1) + 0)%nat at 1.
    rewrite HR by (lia || done). done.
  - change 5%nat with (4 * (0 * Z.to_nat 2 + 1) + 1)%nat at 1.
    rewrite HG by (lia || done). done.
Qed.

(** C2: the coherent grain synthesis is a function of its three
    arguments alone: whatever the ambient state (the source of
    [Math.random]), two calls return the same completion, and the call
    leaves the ambient state as it found it. *)
Theorem generateMonochromaticGrain_deterministic
    (width height : Z) (grainSize : JSNum) (w1 w2 : World) :
  fst (_generateMonochromaticGrain width height grainSize w1)
  = fst (_generateMonochromaticGrain width height grainSize w2)
  /\ snd (_generateMonochromaticGrain width height grainSize w1) = w1.
Proof.
  destruct (decide (valid_dimensions width height)) as [Hv|Hv].
  - by rewrite !generateMonochromaticGrain_valid.
  - by rewrite !generateMonochromaticGrain_invalid.
Qed.

(** The fast variant is not: its grid depends on the random source. *)
Lemma generateOptimizedGrain_depends_on_random :
  fst (_generateOptimizedGrain 1 1 (Num 1) (mkWorld (fun _ => 0%R) 0))
  <> fst (_generateOptimizedGrain 1 1 (Num 1) (mkWorld (fun _ => (1 / 2)%R) 0)).
Proof.
  unfold _generateOptimizedGrain, bind.
  rewrite !new_grid_valid by (unfold valid_dimensions; lia).
  cbn. intros Heq. simplify_eq. lra.
Qed.

(** The alpha byte of every pixel is as the grain stage found it. *)
Lemma applyNaturalGrain_alpha
    (data : Uint8ClampedArray) (width height : Z) (settings : Settings)
    (w w' : World) (out : Uint8ClampedArray) :
  _applyNaturalGrain data width height settings w = (Normal out, w') ->
  length out = length data
  /\ forall i : nat, (i `mod` 4 = 3)%nat -> out !! i = data !! i.
Proof.
  intros Hrun. apply applyNaturalGrain_Normal in Hrun as (_ & _ & Hlen & Hst).
  split; [done|]. intros i Hi. rewrite Hst.
  destruct (data !! i) as [v|]; [|done]. cbn [fmap option_fmap option_map].
  unfold byte_after. cbv zeta. by rewrite decide_False by lia.
Qed.

(** C4: every byte the grain stage writes into a colour channel lies in
    [0,255], and the value saturates: a sum at or above 255 is stored as
    255 and a sum at or below 0 as 0; [_clamp] itself returns a number of
    [0,255] unless its argument is not a number. *)
Theorem applyNaturalGrain_channels_in_range
    (data : Uint8ClampedArray) (width height : Z) (settings : Settings)
    (w w' : World) (out : Uint8ClampedArray) :
  _applyNaturalGrain data width height settings w = (Normal out, w') ->
  (forall (y x c : nat) (v : Z),
     (y < Z.to_nat height)%nat -> (x < Z.to_nat width)%nat -> (c < 3)%nat ->
     data !! (4 * (y * Z.to_nat width + x) + c)%nat = Some v ->
     exists byte : Z,
       out !! (4 * (y * Z.to_nat width + x) + c)%nat = Some byte
       /\ (0 <= byte <= 255)%Z
       /\ (forall r : R,
             (js_of_Z v + grain_delta data width settings y x)%js = Num r ->
             ((255 <= r)%R -> byte = 255%Z) /\ ((r <= 0)%R -> byte = 0%Z)))
  /\ (forall value : JSNum,
        match _clamp value with
        | Num r => (0 <= r <= 255)%R
        | NaN => value = NaN
        | _ => False
        end).
Proof.
  intros Hrun. split; [|apply clamp_range].
  apply applyNaturalGrain_Normal in Hrun as (_ & _ & Hst).
  intros y x c v Hy Hx Hc Hv. eexists. split.
  - by apply (pass_state_channel data width settings _ out y x c v Hst).
  - split; [apply ToUint8Clamp_range|].
    intros r ->. split; intros Hr.
    + by apply store_clamp_high.
    + by apply store_clamp_low.
Qed.

Lemma applyNaturalGrain_channels_in_range_witness :
  exists out,
    _applyNaturalGrain cx_data 2 1 cx_settings w0 = (Normal out, w0)
    /\ exists byte : Z, out !! 5%nat = Some byte /\ (0 <= byte <= 255)%Z.
Proof.
  destruct cx_run_nil as (out & Hrun & _). exists out. split; [exact Hrun|].
  destruct (applyNaturalGrain_channels_in_range cx_data 2 1 cx_settings w0 w0
              out Hrun) as [Hrange _].
  destruct (Hrange 0%nat 1%nat 1%nat 0%Z) as (byte & Hbyte & Hin & _);
    [simpl; lia|simpl; lia|lia|reflexivity|].
  exists byte. split; [exact Hbyte|exact Hin].
Defined.





(** ** Buffers the design document calls invalid *)











End GrainTheorems.

(** * The LUT sampler and the grading stage *)

Module LUTFacts.
Import LUTProcessor Properties Examples.

Local Open Scope js_scope.

(** ** Arithmetic on integral numbers *)

Lemma js_add_Z (a b : Z) : js_of_Z a + js_of_Z b = js_of_Z (a + b).
Proof. unfold js_of_Z. cbn. by rewrite plus_IZR. Qed.

Lemma js_sub_Z (a b : Z) : js_of_Z a - js_of_Z b = js_of_Z (a - b).
Proof. unfold js_of_Z. cbn. by rewrite minus_IZR. Qed.

Lemma js_mul_Z (a b : Z) : js_of_Z a * js_of_Z b = js_of_Z (a * b).
Proof. unfold js_of_Z. cbn. by rewrite mult_IZR. Qed.

Lemma Rmin_IZR (a b : Z) : Rmin (IZR a) (IZR b) = IZR (Z.min a b).
Proof.
  destruct (Z.le_ge_cases a b) as [H|H].
  - rewrite Z.min_l by done. apply Rmin_left. by apply IZR_le.
  - rewrite Z.min_r by done. apply Rmin_right. by apply IZR_le.
Qed.

Lemma Math_min_Z (a b : Z) :
  Math_min (js_of_Z a) (js_of_Z b) = js_of_Z (Z.min a b).
Proof. unfold js_of_Z. cbn. by rewrite Rmin_IZR. Qed.


Lemma array_get_Z {A} (l : list A) (k : Z) :
  (0 <= k)%Z -> array_get l (js_of_Z k) = l !! Z.to_nat k.
Proof.
  intros Hk. unfold array_get, js_of_Z. rewrite Int_part_IZR.
  destruct (Req_dec_T (IZR k) (IZR k)); [|done].
  destruct (Z.ltb_spec k 0); [lia|done].
Qed.

Lemma getLUTColor_Z (lut : LUT) (x y z n : Z) :
  (0 <= Z.min (z * n * n + y * n + x) (Z.of_nat (length (lut_data lut)) - 1))%Z ->
  getLUTColor lut (js_of_Z x) (js_of_Z y) (js_of_Z z) (js_of_Z n)
  = lut_data lut
      !! Z.to_nat (Z.min (z * n * n + y * n + x)
                     (Z.of_nat (length (lut_data lut)) - 1)).
Proof.
  intros Hk. unfold getLUTColor.
  rewrite !js_mul_Z, !js_add_Z. unfold js_of_nat.
  change (Num (IZR ?k)) with (js_of_Z k). change (Num 1) with (js_of_Z 1).
  rewrite js_sub_Z, Math_min_Z. by apply array_get_Z.
Qed.









(** ** The grading stage *)

(** A loop that returns normally has kept an invariant that every normal
    step of its body keeps. *)
Lemma for_range_partial {St S} (I : nat -> S -> Prop)
    (body : nat -> S -> M St S) (count start : nat) (s t : S) (w w' : St) :
  I start s ->
  (forall i u u' w1 w2, I i u -> body i u w1 = (Normal u', w2) -> I (Datatypes.S i) u') ->
  for_range start count body s w = (Normal t, w') ->
  I (start + count)%nat t.
Proof.
  intros H0 Hstep. revert start s w H0.
  induction count as [|k IH]; intros start s w H0 Hrun.
  - cbn in Hrun. unfold ret in Hrun. simplify_eq. by rewrite Nat.add_0_r.
  - cbn [for_range] in Hrun. unfold bind in Hrun.
    destruct (body start s w) as [[s1|e] w1] eqn:Hb; [|discriminate].
    replace (start + Datatypes.S k)%nat with (Datatypes.S start + k)%nat by lia.
    apply (IH (Datatypes.S start) s1 w1); [|done]. by apply (Hstep start s s1 w w1).
Qed.

Lemma sampleLUT3D_state {St} (lut : LUT) (r g b size : JSNum) (st st' : St) c :
  sampleLUT3D lut r g b size st = (c, st') -> st' = st.
Proof.
  unfold sampleLUT3D. cbv zeta. unfold bind, mixColor, ret, throw.
  repeat match goal with
         | |- context [getLUTColor ?l ?x ?y ?z ?n] =>
             destruct (getLUTColor l x y z n)
         end; intros; by simplify_eq.
Qed.

Lemma applyLUTTransformation_alpha {St} (imageData : ImageData) (lut : LUT)
    (strength : JSNum) (st st' : St) (out : ImageData) :
  applyLUTTransformation imageData lut strength st = (Normal out, st') ->
  length (data out) = length (data imageData)
  /\ (forall i : nat, (i `mod` 4 = 3)%nat -> data out !! i = data imageData !! i)
  /\ width out = width imageData /\ height out = height imageData.
Proof.
  unfold applyLUTTransformation. cbv zeta. unfold bind at 1.
  destruct (for_range _ _ _ _ _) as [[d|e] st1] eqn:Hloop; [|discriminate].
  unfold ret. intros Heq. simplify_eq. cbn [data width height].
  enough (length d = length (data imageData)
          /\ forall i : nat, (i `mod` 4 = 3)%nat -> d !! i = data imageData !! i)
    as [? ?] by done.
  apply (for_range_partial
           (fun _ d => length d = length (data imageData)
                       /\ forall i : nat, (i `mod` 4 = 3)%nat ->
                                          d !! i = data imageData !! i))
    in Hloop; [done|done|].
  intros k u u' w1 w2 [Hlen Ha]. unfold bind.
  destruct (sampleLUT3D _ _ _ _ _ _) as [[c|e] w3]; [|discriminate].
  unfold ret. intros Heq. simplify_eq. split.
  - by rewrite !GrainFacts.length_u8_set.
  - intros i Hi. rewrite !GrainFacts.lookup_u8_set by lia.
    repeat case_decide; try (exfalso; lia). by apply Ha.
Qed.

(** The grid coordinate below a point of the unit interval. *)
Lemma floor_in_cube (n : Z) (r : R) :
  (1 <= n)%Z -> (0 <= r <= 1)%R ->
  exists k : Z,
    Math_floor (Num r * (js_of_Z n - Num 1)) = js_of_Z k /\ (0 <= k <= n - 1)%Z.
Proof.
  intros Hn Hr. unfold js_of_Z. cbn [js_sub js_neg js_add js_mul Math_floor].
  eexists. split; [reflexivity|].
  assert (Hn' : (1 <= IZR n)%R) by (by apply IZR_le).
  pose proof (Int_part_bounds (r * (IZR n + - (1)))) as Hb.
  set (k := Int_part _) in *.
  assert (H1 : (IZR (-1) < IZR k)%R) by (simpl; nra).
  assert (H2 : (IZR k < IZR n)%R) by nra.
  apply lt_IZR in H1, H2. lia.
Qed.

Lemma getLUTColor_defined (lut : LUT) (n x y z : Z) :
  lut_data lut <> [] ->
  (0 <= n)%Z -> (0 <= x)%Z -> (0 <= y)%Z -> (0 <= z)%Z ->
  is_Some (getLUTColor lut (js_of_Z x) (js_of_Z y) (js_of_Z z) (js_of_Z n)).
Proof.
  intros Hne Hn Hx Hy Hz.
  assert (0 < length (lut_data lut))%nat by (destruct (lut_data lut); [done|simpl; lia]).
  assert (0 <= z * n * n + y * n + x)%Z by nia.
  rewrite getLUTColor_Z by lia. apply lookup_lt_is_Some_2. lia.
Qed.

(** On a table that is not empty, with an edge length of at least 1,
    sampling a point of the unit cube returns a colour. *)
Lemma sampleLUT3D_total {St} (lut : LUT) (n : Z) (r g b : R) (st : St) :
  lut_data lut <> [] -> (1 <= n)%Z ->
  (0 <= r <= 1)%R -> (0 <= g <= 1)%R -> (0 <= b <= 1)%R ->
  exists c, sampleLUT3D lut (Num r) (Num g) (Num b) (js_of_Z n) st = (Normal c, st).
Proof.
  intros Hne Hn Hr Hg Hb. unfold sampleLUT3D. cbv zeta.
  destruct (floor_in_cube n r Hn Hr) as (x0 & -> & Hx0).
  destruct (floor_in_cube n g Hn Hg) as (y0 & -> & Hy0).
  destruct (floor_in_cube n b Hn Hb) as (z0 & -> & Hz0).
  change (Num 1) with (js_of_Z 1).
  rewrite !js_add_Z, !js_sub_Z, !Math_min_Z.
  destruct (getLUTColor_defined lut n x0 y0 z0) as [c000 ->]; [done||lia..|].
  destruct (getLUTColor_defined lut n (Z.min (x0 + 1) (n - 1)) y0 z0)
    as [c100 ->]; [done||lia..|].
  destruct (getLUTColor_defined lut n x0 (Z.min (y0 + 1) (n - 1)) z0)
    as [c010 ->]; [done||lia..|].
  destruct (getLUTColor_defined lut n (Z.min (x0 + 1) (n - 1))
              (Z.min (y0 + 1) (n - 1)) z0) as [c110 ->]; [done||lia..|].
  destruct (getLUTColor_defined lut n x0 y0 (Z.min (z0 + 1) (n - 1)))
    as [c001 ->]; [done||lia..|].
  destruct (getLUTColor_defined lut n (Z.min (x0 + 1) (n - 1)) y0
              (Z.min (z0 + 1) (n - 1))) as [c101 ->]; [done||lia..|].
  destruct (getLUTColor_defined lut n x0 (Z.min (y0 + 1) (n - 1))
              (Z.min (z0 + 1) (n - 1))) as [c011 ->]; [done||lia..|].
  destruct (getLUTColor_defined lut n (Z.min (x0 + 1) (n - 1))
              (Z.min (y0 + 1) (n - 1)) (Z.min (z0 + 1) (n - 1)))
    as [c111 ->]; [done||lia..|].
  unfold bind, mixColor, ret. eexists. reflexivity.
Qed.

Lemma Forall_u8_set (d : Uint8ClampedArray) (i : Z) (v : JSNum) :
  Forall is_byte d -> Forall is_byte (u8_set d i v).
Proof.
  intros Hd. unfold u8_set. destruct (i <? 0)%Z; [done|].
  destruct (decide (Z.to_nat i < length d)%nat) as [Hi|Hi].
  - apply Forall_insert; [done|]. apply GrainNumerics.ToUint8Clamp_range.
  - by rewrite list_insert_ge by lia.
Qed.

Lemma u8_get_unit (d : Uint8ClampedArray) (i : nat) :
  Forall is_byte d -> (i < length d)%nat ->
  exists r : R, u8_get d (Z.of_nat i) / Num 255 = Num r /\ (0 <= r <= 1)%R.
Proof.
  intros Hd Hi. rewrite GrainFacts.u8_get_nat.
  destruct (lookup_lt_is_Some_2 d i Hi) as [v Hv]. rewrite Hv.
  cbn [from_option]. unfold js_of_Z.
  rewrite GrainNumerics.js_div_finite by lra.
  eexists. split; [reflexivity|].
  pose proof (Forall_lookup_1 _ _ _ _ Hd Hv) as [Hlo Hhi].
  apply IZR_le in Hlo, Hhi. split.
  - apply Rmult_le_reg_r with 255%R; [lra|].
    unfold Rdiv. rewrite Rmult_assoc, Rinv_l by lra. lra.
  - apply Rmult_le_reg_r with 255%R; [lra|].
    unfold Rdiv. rewrite Rmult_assoc, Rinv_l by lra. lra.
Qed.

(** The grading stage returns an image for every buffer of whole pixels
    and every table that is not empty and has an edge length of at least 1. *)
Lemma applyLUTTransformation_returns {St} (imageData : ImageData) (lut : LUT)
    (n : Z) (strength : JSNum) (st : St) :
  lut_data lut <> [] -> lut_size lut = js_of_Z n -> (1 <= n)%Z ->
  (length (data imageData) `mod` 4 = 0)%nat ->
  Forall is_byte (data imageData) ->
  exists out, applyLUTTransformation imageData lut strength st = (Normal out, st).
Proof.
  intros Hne Hsize Hn Hmod Hbytes. unfold applyLUTTransformation. cbv zeta.
  match goal with
  | |- context [for_range 0 ?count ?body ?s0] =>
      destruct (for_range_inv
                  (fun _ d => length d = length (data imageData)
                              /\ Forall is_byte d)
                  body st count 0 s0) as (d & Hrun & _)
  end.
  - done.
  - intros k u Hk [Hlen Hu].
    assert (Hin : (4 * k + 3 < length u)%nat) by lia.
    destruct (u8_get_unit u (4 * k) Hu ltac:(lia)) as (r & Hr & Hr01).
    destruct (u8_get_unit u (4 * k + 1) Hu ltac:(lia)) as (g & Hg & Hg01).
    destruct (u8_get_unit u (4 * k + 2) Hu ltac:(lia)) as (b & Hb & Hb01).
    replace (Z.of_nat (4 * k)) with (4 * Z.of_nat k)%Z in Hr by lia.
    replace (Z.of_nat (4 * k + 1)) with (4 * Z.of_nat k + 1)%Z in Hg by lia.
    replace (Z.of_nat (4 * k + 2)) with (4 * Z.of_nat k + 2)%Z in Hb by lia.
    cbv beta. unfold bind. rewrite Hr, Hg, Hb, Hsize.
    destruct (sampleLUT3D_total lut n r g b st Hne Hn Hr01 Hg01 Hb01)
      as (c & ->).
    eexists. split; [reflexivity|]. split.
    + by rewrite !GrainFacts.length_u8_set.
    + by do 3 apply Forall_u8_set.
  - eexists. unfold bind at 1. rewrite Hrun. reflexivity.
Qed.

End LUTFacts.

(** * The string functions at work *)

Module StringExamples.
Import JSString LUTProcessor.

Example trim_spaces : trim "  0.5 0.25 1  " = "0.5 0.25 1"%string.
Proof. reflexivity. Qed.

Example split_lines : split newline "a
b" = ["a"; "b"]%string.
Proof. reflexivity. Qed.

Example tokens_of_row : split_whitespace "0.5   0.25 1" = ["0.5"; "0.25"; "1"]%string.
Proof. reflexivity. Qed.

Example parseInt_decimal : parseInt "33" = js_of_Z 33.
Proof. reflexivity. Qed.

Example parseInt_hexadecimal : parseInt "0x1f" = js_of_Z 31.
Proof. reflexivity. Qed.

Example parseInt_prefix : parseInt "17 lattice points" = js_of_Z 17.
Proof. reflexivity. Qed.

Example parseInt_none : parseInt "" = NaN.
Proof. reflexivity. Qed.

Example parseFloat_quarter : parseFloat "0.25" = Num (25 * powerRZ 10 (-2)).
Proof. reflexivity. Qed.

Example parseFloat_exponent :
  parseFloat "-1.5e2x" = Num (- (15 * powerRZ 10 1)).
Proof. reflexivity. Qed.

Example parseFloat_word : parseFloat "abc" = NaN.
Proof. reflexivity. Qed.

Example parseFloat_infinity : clamp01 (parseFloat "-Infinity") = Num 0.
Proof. reflexivity. Qed.

Example formatLUTName_digits :
  formatLUTName "Kodak_Gold_200" = "Kodak Gold  200"%string.
Proof. reflexivity. Qed.

Example formatLUTName_mixed :
  formatLUTName "fuji_pro_400h" = "Fuji Pro 400h"%string.
Proof. reflexivity. Qed.

Example parse_line_title :
  lut_title (parse_line (mkLUT (Num 33) [] "Unknown LUT")
               (String.app "TITLE " (String quote (String.app "Provia" (String quote "")))))
  = "Provia"%string.
Proof. reflexivity. Qed.

Example parse_line_size :
  lut_size (parse_line (mkLUT (Num 33) [] "Unknown LUT") "LUT_3D_SIZE 17")
  = js_of_Z 17.
Proof. reflexivity. Qed.

End StringExamples.

(** * The parser of [.cube] payloads *)

Module ParserFacts.
Import JSString LUTProcessor Properties Examples.

Lemma parse_line_data (lut : LUT) (line : string) :
  lut_data (parse_line lut line)
  = lut_data lut ++ (if token_row line then row_sample line else []).
Proof.
  unfold parse_line, token_row, row_sample. cbv zeta.
  destruct (trim line =? "")%string; cbn [orb negb andb]; [by rewrite app_nil_r|].
  destruct (startsWith (trim line) "#"); cbn [orb negb andb];
    [by rewrite app_nil_r|].
  destruct (startsWith (trim line) "TITLE"); cbn [negb andb lut_data];
    [by rewrite app_nil_r|].
  destruct (startsWith (trim line) "LUT_3D_SIZE"); cbn [negb andb lut_data];
    [by rewrite app_nil_r|].
  destruct (split_whitespace (trim line)) as [|v0 [|v1 [|v2 [|v3 rest]]]];
    cbn [lut_data]; by rewrite ?app_nil_r.
Qed.

Lemma row_sample_length (line : string) :
  token_row line = true -> length (row_sample line) = 1%nat.
Proof.
  unfold token_row, row_sample. cbv zeta. intros H.
  destruct (split_whitespace (trim line)) as [|v0 [|v1 [|v2 [|v3 rest]]]];
    try done; by rewrite ?andb_false_r in H.
Qed.

Lemma fold_parse_line_data (lines : list string) (lut : LUT) :
  lut_data (fold_left parse_line lines lut)
  = lut_data lut ++ concat (row_sample <$> filter (fun l => token_row l = true) lines).
Proof.
  revert lut. induction lines as [|line lines IH]; intros lut.
  - by rewrite app_nil_r.
  - cbn [fold_left]. rewrite IH, parse_line_data. rewrite filter_cons.
    destruct (token_row line) eqn:Hrow.
    + rewrite decide_True by done. by rewrite <- app_assoc.
    + rewrite decide_False by done. by rewrite app_nil_r.
Qed.

Lemma concat_row_samples_length (rows : list string) :
  Forall (fun l => token_row l = true) rows ->
  length (concat (row_sample <$> rows)) = length rows.
Proof.
  induction 1 as [|line rows Hrow _ IH]; [done|].
  cbn. rewrite length_app, IH, row_sample_length by done. done.
Qed.

(** C7, as stated, fails: a line of three tokens that are not floats is
    taken as a data row; the payload has no row of three floats, and yet
    the parser returns a table (holding NaN) instead of failing. *)
Lemma parseCUBEFile_accepts_non_float_row :
  filter (fun l => float_row l = true) (split newline "a b c") = []
  /\ parseCUBEFile "a b c" tt
     = (Normal (mkLUT (Num 33) [mkRGB NaN NaN NaN] "Unknown LUT"), tt).
Proof. split; reflexivity. Qed.

(** The two outcomes of the parser. *)
Lemma parseCUBEFile_cases {St} (content : string) (st : St) :
  let rows := filter (fun l => token_row l = true) (split newline content) in
  (rows = []
   /\ parseCUBEFile content st = (Throw (Error "No valid LUT data found"), st))
  \/ (rows <> []
      /\ exists lut,
           parseCUBEFile content st = (Normal lut, st)
           /\ lut_data lut = concat (row_sample <$> rows)
           /\ length (lut_data lut) = length rows).
Proof.
  cbv zeta. unfold parseCUBEFile. cbv zeta.
  set (rows := filter (fun l => token_row l = true) (split newline content)).
  set (lut := fold_left parse_line (split newline content) _).
  assert (Hdata : lut_data lut = concat (row_sample <$> rows)).
  { unfold lut. by rewrite fold_parse_line_data. }
  assert (Hlen : length (lut_data lut) = length rows).
  { rewrite Hdata. apply concat_row_samples_length.
    unfold rows. apply list.Forall_forall. intros l Hl.
    by apply list_elem_of_filter in Hl as [? _]. }
  destruct rows as [|row rows'] eqn:Hrows.
  - left. split; [done|]. by rewrite decide_True.
  - right. split; [done|]. exists lut. rewrite decide_False; [done|].
    rewrite Hlen. done.
Qed.

(** C7, amended: parsing fails, with the error "No valid LUT data found",
    if and only if the payload has no data row, a data row being a line
    that is not blank, not a comment, not a [TITLE] or [LUT_3D_SIZE] line,
    and has exactly 3 white-space separated tokens (floats or not);
    otherwise the table is returned with one sample per data row, whatever
    the relation between the number of rows and the cube of the edge
    length. *)
Theorem parseCUBEFile_fails_iff_no_row {St} (content : string) (st : St) :
  let rows := filter (fun l => token_row l = true) (split newline content) in
  (parseCUBEFile content st = (Throw (Error "No valid LUT data found"), st)
   <-> rows = [])
  /\ (rows <> [] ->
      exists lut,
        parseCUBEFile content st = (Normal lut, st)
        /\ lut_data lut = concat (row_sample <$> rows)
        /\ length (lut_data lut) = length rows).
Proof.
  cbv zeta.
  destruct (parseCUBEFile_cases content st) as [[Hnil Hrun]|[Hne Hrun]].
  - split; [by split|]. intros Hne. by destruct Hne.
  - destruct Hrun as (lut & Hrun & Hdata & Hlen). split.
    + split; [|done]. rewrite Hrun. discriminate.
    + intros _. by exists lut.
Qed.

Lemma parseCUBEFile_fails_iff_no_row_witness :
  exists lut,
    parseCUBEFile "LUT_3D_SIZE 2
0 0 0
1 1 1" tt = (Normal lut, tt)
    /\ length (lut_data lut) = 2%nat.
Proof.
  destruct (parseCUBEFile_fails_iff_no_row "LUT_3D_SIZE 2
0 0 0
1 1 1" tt) as [_ Hrows].
  destruct Hrows as (lut & Hrun & _ & Hlen); [discriminate|].
  exists lut. split; [exact Hrun|exact Hlen].
Defined.

End ParserFacts.

(** * Applying a LUT by name *)

Module ApplyLUTFacts.
Import JSString LUTProcessor Properties Examples.

Lemma initialize_returns (env : Env) (st : State) :
  exists st', initialize env st = (Normal tt, st').
Proof.
  unfold initialize, bind, get_state, ret.
  destruct (isInitialized st); [by eexists|].
  destruct (initPromise st); [by eexists|].
  unfold _initializeInternal, bind, try_catch, loadLUTManifest, scanLUTsFolder,
    set_cache, throw.
  destruct (fetch_manifest env); by eexists.
Qed.

Lemma ensure_initialized (env : Env) (st : State) :
  (if isInitialized st then ret tt else initialize env) st
  = (Normal tt, initialized_state env st).
Proof.
  unfold initialized_state, ret.
  destruct (isInitialized st); [done|].
  destruct (initialize_returns env st) as [st' ->]. done.
Qed.

Lemma applyLUT_no_op (env : Env) (imageData : option ImageData)
    (lutName : string) (strength : JSNum) (st : State) :
  lutName = "none"%string \/ strength = Num 0
  \/ lutCache (initialized_state env st) !! lutName = None ->
  applyLUT env imageData lutName strength st
  = (Normal imageData, initialized_state env st).
Proof.
  intros Hcase. unfold applyLUT. unfold bind at 1. unfold get_state at 1.
  unfold bind at 1. rewrite ensure_initialized.
  destruct (decide (lutName = "none"%string)) as [Hnone|Hnone]; [done|].
  destruct (js_strict_eq strength (Num 0)) eqn:Hzero; [done|].
  destruct imageData as [image|]; [|done].
  unfold bind at 1. unfold get_state at 1.
  destruct Hcase as [Hcase|[Hcase|Hcase]].
  - done.
  - subst strength. cbn in Hzero. by destruct (Req_dec_T 0 0).
  - by rewrite Hcase.
Qed.

(** A LUT that is listed but cannot be loaded: its file is not served, or
    its payload has no data row. *)
Lemma loadExternalLUT_fails (env : Env) (lutName : string) (st : State) :
  fetch_cube env lutName = None
  \/ (exists content,
        fetch_cube env lutName = Some content
        /\ filter (fun l => token_row l = true) (split newline content) = []) ->
  exists e st',
    loadExternalLUT env lutName st = (Throw e, st')
    /\ lutCache st' = delete lutName (lutCache st).
Proof.
  intros [Hfetch|(content & Hfetch & Hrows)];
    unfold loadExternalLUT, try_catch; rewrite Hfetch.
  - do 2 eexists. split; reflexivity.
  - unfold bind at 1.
    destruct (ParserFacts.parseCUBEFile_cases content st)
      as [[_ ->]|[Hne _]]; [|done].
    do 2 eexists. split; reflexivity.
Qed.

Lemma applyLUT_load_failure (env : Env) (imageData : option ImageData)
    (lutName : string) (strength : JSNum) (st : State) (lutInfo : LutInfo) :
  lutCache (initialized_state env st) !! lutName = Some lutInfo ->
  info_data lutInfo = None ->
  fetch_cube env lutName = None
  \/ (exists content,
        fetch_cube env lutName = Some content
        /\ filter (fun l => token_row l = true) (split newline content) = []) ->
  fst (applyLUT env imageData lutName strength st) = Normal imageData.
Proof.
  intros Hinfo Hdata Hfail. unfold applyLUT. unfold bind at 1.
  unfold get_state at 1. unfold bind at 1. rewrite ensure_initialized.
  destruct (decide (lutName = "none"%string)) as [Hnone|Hnone]; [done|].
  destruct (js_strict_eq strength (Num 0)) eqn:Hzero; [done|].
  destruct imageData as [image|]; [|done].
  unfold bind at 1. unfold get_state at 1. rewrite Hinfo, Hdata.
  unfold bind at 1. unfold try_catch at 1. unfold bind at 1.
  destruct (loadExternalLUT_fails env lutName (initialized_state env st) Hfail)
    as (e & st' & -> & _).
  reflexivity.
Qed.

(** C8: [applyLUT] returns the image it was given, and does not fail, when
    the selected LUT is "none", when the strength is 0, and when the
    selected name cannot be resolved: the cache, once initialized, has no
    entry for it, or has one whose file cannot be loaded. *)
Theorem applyLUT_returns_input (env : Env) (imageData : option ImageData)
    (lutName : string) (strength : JSNum) (st : State) :
  (lutName = "none"%string \/ strength = Num 0
   \/ lutCache (initialized_state env st) !! lutName = None ->
   applyLUT env imageData lutName strength st
   = (Normal imageData, initialized_state env st))
  /\ (forall lutInfo : LutInfo,
        lutCache (initialized_state env st) !! lutName = Some lutInfo ->
        info_data lutInfo = None ->
        fetch_cube env lutName = None
        \/ (exists content,
              fetch_cube env lutName = Some content
              /\ filter (fun l => token_row l = true) (split newline content)
                 = []) ->
        fst (applyLUT env imageData lutName strength st) = Normal imageData).
Proof.
  split.
  - apply applyLUT_no_op.
  - apply applyLUT_load_failure.
Qed.

Lemma applyLUT_returns_input_witness :
  applyLUT offline (Some grey_pixel) "none" (Num 1) constructor
  = (Normal (Some grey_pixel), initialized_state offline constructor)
  /\ applyLUT offline (Some grey_pixel) "Fuji_Pro_400h" (Num 1) constructor
     = (Normal (Some grey_pixel), initialized_state offline constructor).
Proof.
  split.
  - apply (applyLUT_returns_input offline (Some grey_pixel) "none" (Num 1)
             constructor).
    by left.
  - apply (applyLUT_returns_input offline (Some grey_pixel) "Fuji_Pro_400h"
             (Num 1) constructor).
    right. right. reflexivity.
Defined.

End ApplyLUTFacts.

(** * Properties that span the stages *)

Module PipelineTheorems.
Import GrainProcessor LUTProcessor GrainValues Properties Examples.

(** C5: at every integer lattice point the noise primitive takes the
    gradient [(cos angle, sin angle)] with
    [angle = frac(sin(ix * 12.9898 + iy * 78.233) * 43758.5453) * 2 pi],
    its fade is the quintic [t^3 (t (6 t - 15) + 10)], and at every query
    point it returns the bilinear interpolation, weighted by the fades of
    the fractional offsets, of the dot products of the four corner
    gradients with the offsets from the corners. *)
Theorem coherent_noise_formula :
  (forall (ix iy : Z) (x y : R),
     _gradientDot (js_of_Z ix) (js_of_Z iy) (Num x) (Num y)
     = Num (cos (Spec.angle ix iy) * x + sin (Spec.angle ix iy) * y))
  /\ (forall t : R, _fade (Num t) = Num (Spec.fade t))
  /\ (forall x y : R, _generateCoherentNoise (Num x) (Num y) = Num (Spec.sample x y)).
Proof.
  split; [|split].
  - apply NoiseFacts.gradientDot_finite.
  - apply NoiseFacts.fade_finite.
  - apply NoiseFacts.generateCoherentNoise_finite.
Qed.

(** C3: the grain compositing stage and the LUT grading stage both return
    a buffer of the same length in which the alpha byte of every pixel is
    the one of the input. *)
Theorem alpha_channel_unchanged :
  (forall (data : Uint8ClampedArray) (width height : Z) (settings : Settings)
          (w w' : World) (out : Uint8ClampedArray),
     _applyNaturalGrain data width height settings w = (Normal out, w') ->
     length out = length data
     /\ forall i : nat, (i `mod` 4 = 3)%nat -> out !! i = data !! i)
  /\ (forall (St : Type) (imageData : ImageData) (lut : LUT)
             (strength : JSNum) (st st' : St) (out : ImageData),
        applyLUTTransformation imageData lut strength st = (Normal out, st') ->
        length (data out) = length (data imageData)
        /\ forall i : nat, (i `mod` 4 = 3)%nat ->
                           data out !! i = data imageData !! i).
Proof.
  split.
  - apply GrainTheorems.applyNaturalGrain_alpha.
  - intros St imageData lut strength st st' out Hrun.
    destruct (LUTFacts.applyLUTTransformation_alpha _ _ _ _ _ _ Hrun)
      as (Hlen & Halpha & _).
    by split.
Qed.

Lemma alpha_channel_unchanged_witness :
  (exists out,
     _applyNaturalGrain cx_data 2 1 cx_settings w0 = (Normal out, w0)
     /\ out !! 7%nat = Some 255%Z)
  /\ (exists out,
        applyLUTTransformation grey_pixel identity_lut (Num 1) tt
        = (Normal out, tt)
        /\ data out !! 3%nat = Some 77%Z).
Proof.
  destruct alpha_channel_unchanged as [Hgrain Hlut]. split.
  - destruct GrainNumerics.cx_run_nil as (out & Hrun & _).
    exists out. split; [exact Hrun|].
    destruct (Hgrain _ _ _ _ _ _ _ Hrun) as [_ Halpha].
    by rewrite Halpha.
  - destruct (LUTFacts.applyLUTTransformation_returns grey_pixel identity_lut 2
                (Num 1) tt) as (out & Hrun);
      [done|done|lia|done|repeat constructor; lia|].
    exists out. split; [exact Hrun|].
    destruct (Hlut _ _ _ _ _ _ _ Hrun) as [_ Halpha].
    by rewrite Halpha.
Defined.

End PipelineTheorems.
